(** * salt.states.archive: the [extracted] state

    A shallow embedding of [src/salt/states/archive.py] and the properties
    of its reconciliation algorithm.

    The Python function talks to its surroundings only through injected
    collaborators ([__salt__], [os], [tarfile]) and reads two ambient
    globals ([__opts__], [__env__]).  The embedding makes every collaborator
    invocation a node of a small program tree; running a tree against a
    world (a state-passing handler) gives the returned value, the ordered
    trace of collaborator calls with their answers, and the final world.
    Calls to [log.debug] are left out: they never influence control flow. *)

From Stdlib Require Import ZArith Ascii String List Bool.
From stdpp Require Import base option list strings gmap.

Set Default Proof Using "Type".

(** ** Python strings *)

Module PyStr.

(** The double-quote character of ['tar {0} "{1}"']. *)
Definition dquote : string := String (ascii_of_nat 34) EmptyString.

(** [needle in hay] on [str]: substring test. *)
Fixpoint contains (needle hay : string) : bool :=
  String.prefix needle hay
  || match hay with
     | EmptyString => false
     | String _ rest => contains needle rest
     end.

(** [s.replace(old, new)] for one-character [old] and [new]. *)
Fixpoint replace (old new : ascii) (s : string) : string :=
  match s with
  | EmptyString => EmptyString
  | String c rest =>
      String (if Ascii.eqb c old then new else c) (replace old new rest)
  end.

(** [sep.join(parts)]. *)
Fixpoint join (sep : string) (parts : list string) : string :=
  match parts with
  | [] => EmptyString
  | [p] => p
  | p :: rest => p +:+ sep +:+ join sep rest
  end.

(** [x in tuple_of_str]. *)
Definition elem (x : string) (t : list string) : bool :=
  existsb (String.eqb x) t.

End PyStr.

(** ** Data model *)

(** Values stored in a [changes] dictionary. *)
Inductive pyval : Type :=
| PNone
| PBool (b : bool)
| PInt (z : Z)
| PStr (s : string)
| PList (l : list string).

(** A state return dictionary
    [{'name': .., 'result': .., 'changes': .., 'comment': ..}];
    ['result'] is [True], [False] or [None]. *)
Record StateRet : Type := mkStateRet {
  ret_name : string;
  ret_result : option bool;
  ret_changes : gmap string pyval;
  ret_comment : string
}.

Definition set_result (v : option bool) (r : StateRet) : StateRet :=
  mkStateRet (ret_name r) v (ret_changes r) (ret_comment r).
Definition set_changes (v : gmap string pyval) (r : StateRet) : StateRet :=
  mkStateRet (ret_name r) (ret_result r) v (ret_comment r).
Definition set_comment (v : string) (r : StateRet) : StateRet :=
  mkStateRet (ret_name r) (ret_result r) (ret_changes r) v.

(** Modelled from the spec: the answer of [runShellCommand]
    ([__salt__['cmd.run_all']]), whose module is not part of the sources:
    exit code, standard output and standard error. *)
Record CmdResult : Type := mkCmdResult {
  retcode : Z;
  stdout : string;
  stderr : string
}.

(** The [results] dictionary as it is stored under [ret['changes']]. *)
Definition results_dict (r : CmdResult) : gmap string pyval :=
  <["retcode" := PInt (retcode r)]>
    (<["stdout" := PStr (stdout r)]>
       (<["stderr" := PStr (stderr r)]> ∅)).

(** The [data] argument of [__salt__['state.high']] (lines 108-119): one
    [file.managed] declaration keyed by the cache file name. *)
Record HighData : Type := mkHighData {
  hd_id : string;
  hd_state : string;
  hd_fun : string;
  hd_name : string;
  hd_source : string;
  hd_source_hash : option string;
  hd_makedirs : bool;
  hd_saltenv : string
}.

(** The variable [files]: a list of member names on the library paths, the
    captured output text on the external tar path. *)
Inductive Files : Type :=
| FNames (l : list string)
| FOutput (s : string).

(** [len(files)] *)
Definition len (f : Files) : nat :=
  match f with
  | FNames l => length l
  | FOutput s => String.length s
  end.

Definition files_val (f : Files) : pyval :=
  match f with
  | FNames l => PList l
  | FOutput s => PStr s
  end.

(** What a call of the function produces: a returned dictionary, or an
    exception raised by the function's own code. *)
Inductive PyExn : Type := IndexError.

Inductive PyResult : Type :=
| Returned (r : StateRet)
| Raised (e : PyExn).

(** The ambient globals: [__opts__['cachedir']], [__opts__['test']],
    [__env__], and the platform's [os.path.join]. *)
Record Ambient : Type := mkAmbient {
  opts_cachedir : string;
  opts_test : bool;
  env : string;
  os_path_join : string -> string -> string
}.

(** ** Collaborators *)

Inductive Call : Type :=
| file_directory_exists (path : string)
| file_file_exists (path : string)
| os_path_exists (path : string)
| state_high (data : HighData)
| file_makedirs (path : string)
| archive_un (fmt : string) (archive dest : string)
| tarfile_open (archive mode : string)
| tar_getnames (archive : string)
| tar_extractall (archive dest : string)
| tar_close (archive : string)
| cmd_run_all (cmd cwd : string)
| cmd_retcode (cmd : string)
| os_unlink (path : string)
| file_remove (path : string).

(** The type of a collaborator's answer.  [state.high] answers with a
    dictionary from declaration ids to state returns, kept in its key
    order. *)
Definition Resp (c : Call) : Type :=
  match c with
  | file_directory_exists _ | file_file_exists _ | os_path_exists _ => bool
  | state_high _ => list (string * StateRet)
  | archive_un _ _ _ | tar_getnames _ => list string
  | cmd_run_all _ _ => CmdResult
  | cmd_retcode _ => Z
  | file_makedirs _ | tarfile_open _ _ | tar_extractall _ _ | tar_close _
  | os_unlink _ | file_remove _ => unit
  end.

(** Answers, untyped, as they are recorded in a trace. *)
Inductive Answer : Type :=
| ABool (b : bool)
| AHigh (d : list (string * StateRet))
| ANames (l : list string)
| ACmd (r : CmdResult)
| AInt (z : Z)
| ADone.

Definition answer (c : Call) : Resp c -> Answer :=
  match c with
  | file_directory_exists _ | file_file_exists _ | os_path_exists _ => ABool
  | state_high _ => AHigh
  | archive_un _ _ _ | tar_getnames _ => ANames
  | cmd_run_all _ _ => ACmd
  | cmd_retcode _ => AInt
  | file_makedirs _ | tarfile_open _ _ | tar_extractall _ _ | tar_close _
  | os_unlink _ | file_remove _ => fun _ => ADone
  end.

Definition Event : Type := Call * Answer.

(** Existence checks only read the world. *)
Definition is_query (c : Call) : bool :=
  match c with
  | file_directory_exists _ | file_file_exists _ | os_path_exists _ => true
  | _ => false
  end.

Definition is_fetch (c : Call) : bool :=
  match c with state_high _ => true | _ => false end.

Definition is_extraction (c : Call) : bool :=
  match c with
  | archive_un _ _ _ | tarfile_open _ _ | tar_getnames _
  | tar_extractall _ _ | tar_close _ | cmd_run_all _ _ | cmd_retcode _ => true
  | _ => false
  end.

(** The two calls that delete: cache cleanup and rollback. *)
Definition is_cleanup (c : Call) : bool :=
  match c with
  | os_unlink _ | file_remove _ => true
  | _ => false
  end.

(** Calls that write to the file system. *)
Definition is_mutation (c : Call) : bool :=
  match c with
  | state_high _ | file_makedirs _ | archive_un _ _ _ | tar_extractall _ _
  | cmd_run_all _ _ | os_unlink _ | file_remove _ => true
  | _ => false
  end.

(** ** Programs over collaborators *)

Inductive Prog (A : Type) : Type :=
| Ret (a : A)
| Vis (c : Call) (k : Resp c -> Prog A).
Arguments Ret {A} a.
Arguments Vis {A} c k.

Definition call (c : Call) : Prog (Resp c) := Vis c Ret.

Fixpoint bind {A B} (p : Prog A) (f : A -> Prog B) : Prog B :=
  match p with
  | Ret a => f a
  | Vis c k => Vis c (fun r => bind (k r) f)
  end.

#[export] Instance Prog_ret : MRet Prog := @Ret.
#[export] Instance Prog_bind : MBind Prog := fun A B f p => bind p f.

(** The outcome of running a program. *)
Record Run (W A : Type) : Type := mkRun {
  value : A;
  trace : list Event;
  final : W
}.
Arguments mkRun {W A} value trace final.
Arguments value {W A} r.
Arguments trace {W A} r.
Arguments final {W A} r.

Section Running.
Context {W : Type}.
Variable handle : forall c : Call, W -> Resp c * W.

Fixpoint run {A} (p : Prog A) (w : W) : Run W A :=
  match p with
  | Ret a => mkRun a [] w
  | Vis c k =>
      let rw := handle c w in
      let rest := run (k (fst rw)) (snd rw) in
      mkRun (value rest) ((c, answer c (fst rw)) :: trace rest) (final rest)
  end.

(** A world on which the existence checks have no effect. *)
Definition query_pure : Prop :=
  forall c w, is_query c = true -> snd (handle c w) = w.
End Running.

(** A run that comes after recorded events. *)
Definition prepend {W A} (events : list Event) (r : Run W A) : Run W A :=
  mkRun (value r) (events ++ trace r) (final r).

(** ** The state function *)

Module Archive.

(** Line 77. *)
Definition valid_archives : list string := ["tar"; "rar"; "zip"].

(** [not x] on a value that is [True], [False] or [None]. *)
Definition falsy (v : option bool) : bool :=
  match v with
  | Some true => false
  | _ => true
  end.

(** Line 76: the initial [ret]. *)
Definition initial_ret (name : string) : StateRet :=
  mkStateRet name None ∅ EmptyString.

(** Lines 85-86. *)
Definition marker (name : string) (if_missing : option string) : string :=
  default name if_missing.

(** Lines 96-98: the cache file of a presence marker and a format. *)
Definition cache_filename (g : Ambient) (if_missing archive_format : string)
  : string :=
  os_path_join g (opts_cachedir g)
    (PyStr.replace "/" "_" if_missing +:+ "." +:+ archive_format).

(** Lines 108-119. *)
Definition managed_file (g : Ambient) (filename source : string)
    (source_hash : option string) : HighData :=
  mkHighData filename "file" "managed" filename source source_hash true
    (env g).

(** Lines 150-152: the loop over [['x', 'f']]. *)
Definition normalize_tar_options (tar_options : string) : string :=
  fold_left
    (fun tar_options opt =>
       if negb (PyStr.contains opt tar_options)
       then "-" +:+ opt +:+ " " +:+ tar_options
       else tar_options)
    ["x"; "f"] tar_options.

(** Lines 153-154: the command line handed to [cmd.run_all]. *)
Definition tar_command (tar_options filename : string) : string :=
  "tar " +:+ tar_options +:+ " " +:+ PyStr.dquote +:+ filename
    +:+ PyStr.dquote.

Definition bsdtar_probe : string := "tar --version | grep bsdtar".

(** Lines 130-164: from the second preview check to the end of the
    extraction step.  [inl] is a [return] of the function, [inr] the
    value of [files] on reaching line 165. *)
Definition extract_archive (g : Ambient) (name source archive_format : string)
    (tar_options : option string) (filename : string)
  : Prog (PyResult + Files) :=
  let ret := initial_ret name in
  if opts_test g then
    mret (inl (Returned
      (set_comment
         ("Archive " +:+ source +:+ " would have been extracted in " +:+ name)
         (set_result None ret))))
  else
    _ ← call (file_makedirs name);
    if PyStr.elem archive_format ["zip"; "rar"] then
      files ← call (archive_un archive_format filename name);
      mret (inr (FNames files))
    else
      match tar_options with
      | None =>
          _ ← call (tarfile_open filename "r");
          files ← call (tar_getnames filename);
          _ ← call (tar_extractall filename name);
          _ ← call (tar_close filename);
          mret (inr (FNames files))
      | Some tar_options =>
          let tar_options := normalize_tar_options tar_options in
          results ← call (cmd_run_all (tar_command tar_options filename) name);
          if negb (Z.eqb (retcode results) 0) then
            mret (inl (Returned
              (set_changes (results_dict results)
                 (set_result (Some false) ret))))
          else
            probe ← call (cmd_retcode bsdtar_probe);
            let files :=
              if Z.eqb probe 0 then stderr results else stdout results in
            let files :=
              if Nat.eqb (String.length files) 0
              then "no tar output so far" else files in
            mret (inr (FOutput files))
      end.

(** Lines 76-164: everything up to the end of the extraction step. *)
Definition extraction_phase (g : Ambient) (name source archive_format : string)
    (tar_options source_hash if_missing : option string)
  : Prog (PyResult + Files) :=
  let ret := initial_ret name in
  if negb (PyStr.elem archive_format valid_archives) then
    mret (inl (Returned
      (set_comment
         (name +:+ " is not supported, valids: "
            +:+ PyStr.join "," valid_archives)
         (set_result (Some false) ret))))
  else
    let if_missing := marker name if_missing in
    is_dir ← call (file_directory_exists if_missing);
    present ← (if is_dir : bool then mret true
               else call (file_file_exists if_missing));
    if present : bool then
      mret (inl (Returned
        (set_comment (if_missing +:+ " already exists")
           (set_result (Some true) ret))))
    else
      let filename := cache_filename g if_missing archive_format in
      cached ← call (os_path_exists filename);
      if negb cached then
        if opts_test g then
          mret (inl (Returned
            (set_comment
               ("Archive " +:+ source
                  +:+ " would have been downloaded in cache")
               (set_result None ret))))
        else
          file_result ←
            call (state_high (managed_file g filename source source_hash));
          match file_result with
          | [] => mret (inl (Raised IndexError))
          | (_, file_result) :: _ =>
              if falsy (ret_result file_result) then
                mret (inl (Returned file_result))
              else
                extract_archive g name source archive_format tar_options
                  filename
          end
      else
        extract_archive g name source archive_format tar_options filename.

(** Lines 165-178: the verdict on [files]. *)
Definition outcome_aggregator (name source if_missing : string)
    (keep : bool) (filename : string) (files : Files) : Prog PyResult :=
  let ret := initial_ret name in
  if negb (Nat.eqb (len files) 0) then
    let directories_created :=
      if negb (String.eqb if_missing name)
      then [name] ++ [if_missing] else [name] in
    let ret :=
      set_comment (source +:+ " extracted in " +:+ name)
        (set_changes
           (<["extracted_files" := files_val files]>
              (<["directories_created" := PList directories_created]>
                 (ret_changes ret)))
           (set_result (Some true) ret)) in
    if negb keep then
      _ ← call (os_unlink filename);
      mret (Returned ret)
    else mret (Returned ret)
  else
    _ ← call (file_remove if_missing);
    mret (Returned
      (set_comment ("Can't extract content of " +:+ source)
         (set_result (Some false) ret))).

(** [extracted(name, source, archive_format, tar_options=None,
    source_hash=None, if_missing=None, keep=False)] *)
Definition extracted (g : Ambient) (name source archive_format : string)
    (tar_options source_hash if_missing : option string) (keep : bool)
  : Prog PyResult :=
  d ← extraction_phase g name source archive_format tar_options source_hash
        if_missing;
  match d with
  | inl r => mret r
  | inr files =>
      outcome_aggregator name source (marker name if_missing) keep
        (cache_filename g (marker name if_missing) archive_format) files
  end.

End Archive.

Arguments Archive.marker : simpl never.
Arguments Archive.cache_filename : simpl never.
Arguments Archive.managed_file : simpl never.
Arguments Archive.normalize_tar_options : simpl never.
Arguments Archive.tar_command : simpl never.
Arguments PyStr.elem : simpl never.
Arguments PyStr.contains : simpl never.
Arguments PyStr.join : simpl never.
Arguments String.append : simpl never.
Arguments results_dict : simpl never.

(** ** The spec's three outcomes

    The source reports [True], [False] or [None] under ['result'].  The
    spec reads them as three outcomes: [False] is a failure, [True] with a
    non-empty change-set a change, anything else (nothing to do, or a
    change only previewed) satisfied. *)

Inductive Outcome : Type := Satisfied | Changed | Failed.

Definition outcome (r : StateRet) : Outcome :=
  match ret_result r with
  | Some false => Failed
  | Some true => if decide (ret_changes r = ∅) then Satisfied else Changed
  | None => Satisfied
  end.

(** ** A concrete world

    A small file system with one fetch collaborator, one archive library
    and one tar executable, used to run the function on inputs. *)

Module Fake.

Record World : Type := mkWorld {
  dirs : list string;
  files : list string;
  fetch_ok : bool;
  members : list string;
  tool : CmdResult;
  bsdtar : bool
}.

Definition has (p : string) (l : list string) : bool :=
  existsb (String.eqb p) l.

Definition without (p : string) (l : list string) : list string :=
  filter (fun q => negb (String.eqb p q)) l.

Definition with_dirs (d : list string) (w : World) : World :=
  mkWorld d (files w) (fetch_ok w) (members w) (tool w) (bsdtar w).

Definition with_files (f : list string) (w : World) : World :=
  mkWorld (dirs w) f (fetch_ok w) (members w) (tool w) (bsdtar w).

(** [posixpath.join] on two components. *)
Definition join (a b : string) : string :=
  if String.prefix "/" b then b
  else if Nat.eqb (String.length a) 0 then b
  else if String.eqb (String.substring (String.length a - 1) 1 a) "/"
       then a +:+ b
       else a +:+ "/" +:+ b.

Definition unpack (dest : string) (w : World) : World :=
  with_files (map (join dest) (members w) ++ files w) w.

Definition handle (c : Call) (w : World) : Resp c * World :=
  match c as c0 return Resp c0 * World with
  | file_directory_exists p => (has p (dirs w), w)
  | file_file_exists p => (has p (files w), w)
  | os_path_exists p => (has p (dirs w) || has p (files w), w)
  | state_high d =>
      if fetch_ok w then
        ([(hd_id d,
           mkStateRet (hd_name d) (Some true)
             {[ "diff" := PStr "New file" ]} "File updated")],
         with_files (hd_name d :: files w) w)
      else
        ([(hd_id d,
           mkStateRet (hd_name d) (Some false) ∅ "Source file not found")],
         w)
  | file_makedirs p => (tt, with_dirs (p :: dirs w) w)
  | archive_un _ _ dest =>
      (members w, unpack dest w)
  | tarfile_open _ _ => (tt, w)
  | tar_getnames _ => (members w, w)
  | tar_extractall _ dest =>
      (tt, unpack dest w)
  | tar_close _ => (tt, w)
  | cmd_run_all _ _ => (tool w, w)
  | cmd_retcode _ => (if bsdtar w then 0%Z else 1%Z, w)
  | os_unlink p => (tt, with_files (without p (files w)) w)
  | file_remove p =>
      (tt, with_dirs (without p (dirs w)) (with_files (without p (files w)) w))
  end.

Definition ambient (test : bool) : Ambient :=
  mkAmbient "/var/cache/salt/minion" test "base" join.

Definition quiet : CmdResult := mkCmdResult 0 EmptyString EmptyString.

(** Nothing extracted yet, nothing cached. *)
Definition fresh : World :=
  mkWorld ["/opt"] [] true ["a.txt"; "b.txt"] quiet false.

(** The presence marker ["/opt/app"] is there. *)
Definition done_already : World :=
  mkWorld ["/opt"; "/opt/app"] [] true ["a.txt"; "b.txt"] quiet false.

(** The archive has no entry. *)
Definition empty_archive : World :=
  mkWorld ["/opt"] [] true [] quiet false.

(** The source cannot be fetched. *)
Definition unreachable : World :=
  mkWorld ["/opt"] [] false ["a.txt"; "b.txt"] quiet false.

(** What a tar executable that cannot read the archive reports. *)
Definition failing : CmdResult :=
  mkCmdResult 2 EmptyString "tar: Unrecognized archive format".

(** The tar executable fails. *)
Definition broken_tool : World :=
  mkWorld ["/opt"] [] true ["a.txt"; "b.txt"] failing false.

(** The archive is in the cache already. *)
Definition cached : World :=
  mkWorld ["/opt"] ["/var/cache/salt/minion/_opt_app.tar"] true
    ["a.txt"; "b.txt"] quiet false.

(** What bsdtar reports: the names go to the standard error. *)
Definition listing : CmdResult :=
  mkCmdResult 0 EmptyString "x a.txt".

(** The tar executable is bsdtar. *)
Definition with_bsdtar : World :=
  mkWorld ["/opt"] [] true ["a.txt"; "b.txt"] listing true.

(** The same file system behind a [state.high] that answers with an
    empty dictionary. *)
Definition mute (c : Call) (w : World) : Resp c * World :=
  match c as c0 return Resp c0 * World with
  | state_high _ => ([], w)
  | c0 => handle c0 w
  end.

End Fake.

(** ** Traces *)

(** Every call in a trace is an existence check. *)
Definition only_queries (tr : list Event) : Prop :=
  Forall (fun e : Event => is_query e.1 = true) tr.

(** No call in a trace fetches, extracts or writes. *)
Definition nothing_done (tr : list Event) : Prop :=
  Forall (fun e : Event =>
            is_fetch e.1 = false /\ is_extraction e.1 = false
            /\ is_mutation e.1 = false /\ is_cleanup e.1 = false) tr.

(** Every call a program can make, whatever the collaborators answer,
    satisfies [P]. *)
Fixpoint all_calls {A} (P : Call -> Prop) (p : Prog A) : Prop :=
  match p with
  | Ret _ => True
  | Vis c k => P c /\ forall r, all_calls P (k r)
  end.

(** The calls of a trace, without their answers. *)
Definition calls (tr : list Event) : list Call := map fst tr.

(** The world after a sequence of calls. *)
Definition replay {W} (handle : forall c : Call, W -> Resp c * W)
    (cs : list Call) (w : W) : W :=
  fold_left (fun w c => snd (handle c w)) cs w.

(** What a call of [extracted] may name: the presence marker in the
    existence checks and in the rollback; the cache file in the cache
    check, the fetch, the extraction and the cleanup; the target in
    [file.makedirs] and as the destination of the extraction. *)
Definition in_footprint (g : Ambient) (name source archive_format : string)
    (tar_options source_hash if_missing : option string) (c : Call) : Prop :=
  let m := Archive.marker name if_missing in
  let filename := Archive.cache_filename g m archive_format in
  match c with
  | file_directory_exists p | file_file_exists p | file_remove p => p = m
  | os_path_exists p | os_unlink p => p = filename
  | state_high d =>
      d = Archive.managed_file g filename source source_hash
  | file_makedirs p => p = name
  | archive_un fmt archive dest =>
      fmt = archive_format /\ archive = filename /\ dest = name
  | tarfile_open archive mode => archive = filename /\ mode = "r"
  | tar_getnames archive | tar_close archive => archive = filename
  | tar_extractall archive dest => archive = filename /\ dest = name
  | cmd_run_all cmd cwd =>
      cwd = name
      /\ exists options,
           tar_options = Some options
           /\ cmd = Archive.tar_command
                      (Archive.normalize_tar_options options) filename
  | cmd_retcode cmd => cmd = Archive.bsdtar_probe
  end.

(** * Properties *)

Import Archive.

(** ** Strings *)

Lemma elem_spec (x : string) (t : list string) :
  PyStr.elem x t = true <-> x ∈ t.
Proof.
  unfold PyStr.elem. rewrite existsb_exists. split.
  - intros (y & Hy & Heq). apply String.eqb_eq in Heq. subst y.
    by apply list_elem_of_In.
  - intros Hx. exists x. split; [by apply list_elem_of_In|].
    apply String.eqb_refl.
Qed.

Lemma elem_false (x : string) (t : list string) :
  x ∉ t -> PyStr.elem x t = false.
Proof.
  intros Hx. destruct (PyStr.elem x t) eqn:E; [|done].
  by apply elem_spec in E.
Qed.

Lemma append_empty_r (s : string) : s +:+ EmptyString = s.
Proof.
  induction s as [|c s IH]; [done|].
  change (String c s +:+ EmptyString) with (String c (s +:+ EmptyString)).
  by rewrite IH.
Qed.

Lemma contains_unfold (needle hay : string) :
  PyStr.contains needle hay
  = String.prefix needle hay
    || match hay with
       | EmptyString => false
       | String _ rest => PyStr.contains needle rest
       end.
Proof. by destruct hay. Qed.

Lemma prefix_here (needle rest : string) :
  String.prefix needle (needle +:+ rest) = true.
Proof.
  induction needle as [|c n IH]; [by destruct rest|].
  change (String c n +:+ rest) with (String c (n +:+ rest)).
  cbn [String.prefix]. rewrite IH. by destruct (ascii_dec c c).
Qed.

Lemma contains_here (needle rest : string) :
  PyStr.contains needle (needle +:+ rest) = true.
Proof. rewrite contains_unfold. by rewrite prefix_here. Qed.

Lemma contains_later (needle before hay : string) :
  PyStr.contains needle hay = true ->
  PyStr.contains needle (before +:+ hay) = true.
Proof.
  intros H. induction before as [|c b IH]; [done|].
  change (String c b +:+ hay) with (String c (b +:+ hay)).
  rewrite contains_unfold, IH. apply orb_true_r.
Qed.

Lemma contains_inside (needle before after : string) :
  PyStr.contains needle (before +:+ needle +:+ after) = true.
Proof. apply contains_later, contains_here. Qed.

(** A character that is not in the text put in front is found in the
    whole exactly when it is found in the rest. *)
Lemma contains_char_skip (c : ascii) (before hay : string) :
  PyStr.contains (String c EmptyString) before = false ->
  PyStr.contains (String c EmptyString) (before +:+ hay)
  = PyStr.contains (String c EmptyString) hay.
Proof.
  induction before as [|d b IH]; [done|].
  change (String d b +:+ hay) with (String d (b +:+ hay)).
  rewrite (contains_unfold _ (String d b)), (contains_unfold _ (String d _)).
  cbn [String.prefix]. intros H.
  apply orb_false_elim in H as [Hd Hb].
  rewrite (IH Hb). destruct (ascii_dec c d) as [->|Hne]; [|done].
  by destruct b.
Qed.

Lemma join_valid_archives : PyStr.join "," valid_archives = "tar,rar,zip".
Proof. reflexivity. Qed.

Lemma supported_spec (archive_format : string) :
  archive_format ∈ ["tar"; "zip"; "rar"] <-> archive_format ∈ valid_archives.
Proof. unfold valid_archives. rewrite !elem_of_cons, !elem_of_nil. tauto. Qed.

(** ** Classification of calls *)

Lemma query_only_reads (c : Call) :
  is_query c = true ->
  is_fetch c = false /\ is_extraction c = false /\ is_mutation c = false
  /\ is_cleanup c = false.
Proof. by destruct c. Qed.

(** ** Running programs *)

Section WithWorld.
Context {W : Type}.
Variable handle : forall c : Call, W -> Resp c * W.

Lemma run_bind {A B} (p : Prog A) (f : A -> Prog B) (w : W) :
  let first := run handle p w in
  let second := run handle (f (value first)) (final first) in
  run handle (p ≫= f) w
  = mkRun (value second) (trace first ++ trace second) (final second).
Proof.
  revert w. induction p as [a|c k IH]; intros w; cbn.
  - by destruct (run handle (f a) w).
  - unfold mbind, Prog_bind in IH. cbn in IH. by rewrite IH.
Qed.

(** Existence checks alone leave a world that they do not affect as it
    was. *)
Lemma queries_keep_world {A} (p : Prog A) (w : W) :
  query_pure handle ->
  Forall (fun e : Event => is_query e.1 = true) (trace (run handle p w)) ->
  final (run handle p w) = w.
Proof.
  intros Hpure. revert w. induction p as [a|c k IH]; intros w; cbn; [done|].
  intros Hall. apply Forall_cons in Hall as [Hc Hrest]. cbn in Hc.
  rewrite (IH _ _ Hrest). by apply Hpure.
Qed.

(** ** Unsupported formats *)

(** C5: a format other than tar, zip and rar makes the call fail at
    once: the result is [False], the message names the three valid
    formats, no collaborator has been called and the world is as it
    was. *)
Theorem unsupported_format_fails_first (g : Ambient)
    (name source archive_format : string)
    (tar_options source_hash if_missing : option string) (keep : bool)
    (w : W) :
  archive_format ∉ ["tar"; "zip"; "rar"] ->
  let r := run handle
             (extracted g name source archive_format tar_options
                source_hash if_missing keep) w in
  exists ret,
    value r = Returned ret
    /\ ret_result ret = Some false
    /\ outcome ret = Failed
    /\ (forall f, f ∈ ["tar"; "zip"; "rar"] ->
                  PyStr.contains f (ret_comment ret) = true)
    /\ trace r = []
    /\ final r = w.
Proof.
  intros Hfmt r. subst r. rewrite supported_spec in Hfmt.
  apply elem_false in Hfmt.
  unfold extracted, extraction_phase. rewrite Hfmt. cbn.
  eexists. split; [reflexivity|]. cbn. repeat split.
  intros f Hf. rewrite join_valid_archives.
  apply contains_later.
  repeat (apply elem_of_cons in Hf as [->|Hf]; [reflexivity|]).
  by apply elem_of_nil in Hf.
Qed.

(** C10: the message for an unsupported format is built from the
    target path [name] -- never from the rejected format -- followed by
    [" is not supported, valids: tar,rar,zip"]. *)
Theorem unsupported_format_message_names_target (g : Ambient)
    (name source archive_format : string)
    (tar_options source_hash if_missing : option string) (keep : bool)
    (w : W) :
  archive_format ∉ ["tar"; "zip"; "rar"] ->
  exists ret,
    value (run handle
             (extracted g name source archive_format tar_options
                source_hash if_missing keep) w) = Returned ret
    /\ ret_name ret = name
    /\ ret_comment ret = name +:+ " is not supported, valids: tar,rar,zip".
Proof.
  intros Hfmt. rewrite supported_spec in Hfmt. apply elem_false in Hfmt.
  unfold extracted, extraction_phase. rewrite Hfmt. cbn.
  eexists. split; [reflexivity|]. by rewrite join_valid_archives.
Qed.

(** ** The presence marker *)

Lemma only_queries_nothing_done (tr : list Event) :
  only_queries tr -> nothing_done tr.
Proof.
  unfold only_queries, nothing_done. intros Hq.
  eapply Forall_impl; [exact Hq|]. intros e. apply query_only_reads.
Qed.

(** C1 (amended): for a request with a supported format whose presence
    marker exists as a directory or as a file, the call returns [True]
    with no changes and the message ["<marker> already exists"]; the
    only collaborator calls are the existence checks of the marker, so
    nothing is fetched, extracted or written. *)
Theorem marker_present_is_satisfied (g : Ambient)
    (name source archive_format : string)
    (tar_options source_hash if_missing : option string) (keep : bool)
    (w : W) :
  archive_format ∈ ["tar"; "zip"; "rar"] ->
  let m := marker name if_missing in
  let is_dir := handle (file_directory_exists m) w in
  let is_file := handle (file_file_exists m) is_dir.2 in
  is_dir.1 = true \/ is_file.1 = true ->
  let r := run handle
             (extracted g name source archive_format tar_options
                source_hash if_missing keep) w in
  exists ret,
    value r = Returned ret
    /\ ret_result ret = Some true
    /\ ret_changes ret = ∅
    /\ outcome ret = Satisfied
    /\ ret_comment ret = m +:+ " already exists"
    /\ trace r
       = (if is_dir.1 then [(file_directory_exists m, ABool true)]
          else [(file_directory_exists m, ABool false);
                (file_file_exists m, ABool true)])
    /\ only_queries (trace r)
    /\ nothing_done (trace r)
    /\ (query_pure handle -> final r = w).
Proof.
  intros Hfmt m is_dir is_file Hpresent r.
  apply supported_spec, elem_spec in Hfmt.
  assert (Hrun :
    value r = Returned
                (set_comment (m +:+ " already exists")
                   (set_result (Some true) (initial_ret name)))
    /\ trace r
       = (if is_dir.1 then [(file_directory_exists m, ABool true)]
          else [(file_directory_exists m, ABool false);
                (file_file_exists m, ABool true)])).
  { subst r. unfold extracted, extraction_phase. rewrite Hfmt.
    fold m. cbn in *. fold is_dir.
    destruct (is_dir.1) eqn:Hd; cbn; [done|].
    fold is_file. destruct Hpresent as [?|Hf]; [done|].
    rewrite Hf. cbn. done. }
  destruct Hrun as [Hval Htr].
  assert (Hq : only_queries (trace r)).
  { rewrite Htr. destruct (is_dir.1); repeat constructor. }
  eexists. split; [exact Hval|]. cbn.
  repeat split; [done|done|by apply only_queries_nothing_done|].
  intros Hpure. by apply queries_keep_world.
Qed.

(** ** Preview mode *)

(** C2 (amended): for a request with a supported format, in preview
    mode and with the presence marker absent, the call makes three
    existence checks (marker as directory, marker as file, cache file)
    and nothing else -- no fetch, no [file.makedirs], no extraction, no
    deletion -- whether or not the cache file exists, and returns the
    preview result: [None] with no changes and a "would have been"
    message. *)
Theorem preview_only_checks (g : Ambient)
    (name source archive_format : string)
    (tar_options source_hash if_missing : option string) (keep : bool)
    (w : W) :
  archive_format ∈ ["tar"; "zip"; "rar"] ->
  opts_test g = true ->
  let m := marker name if_missing in
  let is_dir := handle (file_directory_exists m) w in
  let is_file := handle (file_file_exists m) is_dir.2 in
  is_dir.1 = false ->
  is_file.1 = false ->
  let filename := cache_filename g m archive_format in
  let cached := handle (os_path_exists filename) is_file.2 in
  let r := run handle
             (extracted g name source archive_format tar_options
                source_hash if_missing keep) w in
  exists ret,
    value r = Returned ret
    /\ ret_result ret = None
    /\ ret_changes ret = ∅
    /\ outcome ret = Satisfied
    /\ ret_comment ret
       = (if cached.1
          then "Archive " +:+ source +:+ " would have been extracted in "
                 +:+ name
          else "Archive " +:+ source
                 +:+ " would have been downloaded in cache")
    /\ trace r
       = [(file_directory_exists m, ABool false);
          (file_file_exists m, ABool false);
          (os_path_exists filename, ABool cached.1)]
    /\ only_queries (trace r)
    /\ nothing_done (trace r)
    /\ (query_pure handle -> final r = w).
Proof.
  intros Hfmt Htest m is_dir is_file Hd Hf filename cached r.
  apply supported_spec, elem_spec in Hfmt.
  assert (Hrun :
    exists ret,
      value r = Returned ret
      /\ ret_result ret = None
      /\ ret_changes ret = ∅
      /\ ret_comment ret
         = (if cached.1
            then "Archive " +:+ source +:+ " would have been extracted in "
                   +:+ name
            else "Archive " +:+ source
                   +:+ " would have been downloaded in cache")
      /\ trace r
         = [(file_directory_exists m, ABool false);
            (file_file_exists m, ABool false);
            (os_path_exists filename, ABool cached.1)]).
  { subst r. unfold extracted, extraction_phase, extract_archive.
    rewrite Hfmt, Htest. fold m. cbn in *. fold is_dir. rewrite Hd. cbn.
    fold is_file. rewrite Hf. cbn. fold filename. fold cached.
    destruct (cached.1); cbn; eexists; (split; [reflexivity|]); done. }
  destruct Hrun as (ret & Hval & Hres & Hch & Hmsg & Htr).
  assert (Hq : only_queries (trace r)) by (rewrite Htr; repeat constructor).
  exists ret. repeat split; try done.
  - unfold outcome. by rewrite Hres.
  - by apply only_queries_nothing_done.
  - intros Hpure. by apply queries_keep_world.
Qed.

(** ** The verdict on the extracted entries *)

Ltac split_paths :=
  repeat (cbn;
          match goal with
          | |- context [if ?b then _ else _] => destruct b eqn:?
          | |- context [match ?x with [] => _ | _ :: _ => _ end] =>
              destruct x as [|[? ?] ?] eqn:?
          | |- context [match ?x with Some _ => _ | None => _ end] =>
              destruct x eqn:?
          end).

(** Nothing is deleted before the verdict: cache cleanup and rollback
    belong to lines 165-178 alone. *)
Lemma phase_deletes_nothing (g : Ambient)
    (name source archive_format : string)
    (tar_options source_hash if_missing : option string) (w : W) :
  Forall (fun e : Event => is_cleanup e.1 = false)
    (trace (run handle
              (extraction_phase g name source archive_format tar_options
                 source_hash if_missing) w)).
Proof.
  unfold extraction_phase, extract_archive.
  split_paths; repeat constructor.
Qed.

(** The whole call is the extraction phase followed, when that phase
    reaches line 165, by the verdict. *)
Lemma extracted_after_phase (g : Ambient)
    (name source archive_format : string)
    (tar_options source_hash if_missing : option string) (keep : bool)
    (w : W) (files : Files) :
  let phase := run handle
                 (extraction_phase g name source archive_format tar_options
                    source_hash if_missing) w in
  let m := marker name if_missing in
  let verdict := run handle
                   (outcome_aggregator name source m keep
                      (cache_filename g m archive_format) files)
                   (final phase) in
  value phase = inr files ->
  run handle
    (extracted g name source archive_format tar_options source_hash
       if_missing keep) w
  = mkRun (value verdict) (trace phase ++ trace verdict) (final verdict).
Proof.
  intros phase m verdict Hphase. unfold extracted.
  rewrite run_bind. cbn zeta. fold phase. by rewrite Hphase.
Qed.

Lemma eqb_decide (a b : string) :
  String.eqb a b = bool_decide (a = b).
Proof.
  destruct (String.eqb_spec a b).
  - by rewrite bool_decide_eq_true_2.
  - by rewrite bool_decide_eq_false_2.
Qed.

(** The verdict on a non-empty [files] (lines 166-173). *)
Lemma aggregator_changed (name source if_missing : string) (keep : bool)
    (filename : string) (files : Files) (w : W) :
  len files <> 0 ->
  let verdict := run handle
                   (outcome_aggregator name source if_missing keep filename
                      files) w in
  value verdict
  = Returned
      (mkStateRet name (Some true)
         (<["extracted_files" := files_val files]>
            (<["directories_created" :=
                 PList (if negb (String.eqb if_missing name)
                        then [name] ++ [if_missing] else [name])]> ∅))
         (source +:+ " extracted in " +:+ name))
  /\ trace verdict = (if keep then [] else [(os_unlink filename, ADone)]).
Proof.
  intros Hlen. apply Nat.eqb_neq in Hlen. unfold outcome_aggregator.
  rewrite Hlen. by destruct keep.
Qed.

(** The verdict on an empty [files] (lines 175-177). *)
Lemma aggregator_failed (name source if_missing : string) (keep : bool)
    (filename : string) (files : Files) (w : W) :
  len files = 0 ->
  let verdict := run handle
                   (outcome_aggregator name source if_missing keep filename
                      files) w in
  value verdict
  = Returned
      (mkStateRet name (Some false) ∅ ("Can't extract content of " +:+ source))
  /\ trace verdict = [(file_remove if_missing, ADone)].
Proof.
  intros Hlen. unfold outcome_aggregator. rewrite Hlen. split; reflexivity.
Qed.

(** C3: when the extraction step hands a non-empty [files] to line 165,
    the call returns [True] (a change): [directories_created] is
    [[name]], followed by the presence marker when it differs from
    [name]; [extracted_files] is [files]; the message is
    ["<source> extracted in <name>"]; and the cache file is unlinked
    exactly when [keep] is false. *)
Theorem nonempty_extraction_is_changed (g : Ambient)
    (name source archive_format : string)
    (tar_options source_hash if_missing : option string) (keep : bool)
    (w : W) (files : Files) :
  let phase := run handle
                 (extraction_phase g name source archive_format tar_options
                    source_hash if_missing) w in
  let r := run handle
             (extracted g name source archive_format tar_options
                source_hash if_missing keep) w in
  let m := marker name if_missing in
  let filename := cache_filename g m archive_format in
  value phase = inr files ->
  len files <> 0 ->
  exists ret,
    value r = Returned ret
    /\ ret_result ret = Some true
    /\ outcome ret = Changed
    /\ ret_changes ret !! "directories_created"
       = Some (PList (if decide (m = name) then [name] else [name; m]))
    /\ ret_changes ret !! "extracted_files" = Some (files_val files)
    /\ dom (ret_changes ret)
       = ({["directories_created"; "extracted_files"]} : gset string)
    /\ ret_comment ret = source +:+ " extracted in " +:+ name
    /\ trace r
       = trace phase ++ (if keep then [] else [(os_unlink filename, ADone)])
    /\ ((exists a, (os_unlink filename, a) ∈ trace r) <-> keep = false)
    /\ (forall p a, (os_unlink p, a) ∈ trace r -> p = filename).
Proof.
  intros phase r m filename Hphase Hlen.
  pose proof (phase_deletes_nothing g name source archive_format
                tar_options source_hash if_missing w) as Hclean.
  fold phase in Hclean.
  destruct (aggregator_changed name source m keep filename files
              (final phase) Hlen) as [Hval Htr].
  subst r. rewrite (extracted_after_phase _ _ _ _ _ _ _ _ _ files Hphase).
  fold phase m filename. cbn [value trace]. rewrite Hval, Htr.
  set (changes := <["extracted_files" := _]> _).
  assert (Hdirs :
    changes !! "directories_created"
    = Some (PList (if decide (m = name) then [name] else [name; m]))).
  { subst changes. rewrite lookup_insert_ne by done.
    rewrite lookup_insert_eq, eqb_decide.
    by destruct (decide (m = name)) as [->|?];
      [rewrite bool_decide_eq_true_2|rewrite bool_decide_eq_false_2]. }
  assert (Hfiles : changes !! "extracted_files" = Some (files_val files)).
  { subst changes. by rewrite lookup_insert_eq. }
  assert (Hdom :
    dom changes
    = ({["directories_created"; "extracted_files"]} : gset string)).
  { subst changes. rewrite !dom_insert_L, dom_empty_L.
    apply set_eq. intros x. rewrite !elem_of_union, !elem_of_singleton.
    rewrite elem_of_empty. tauto. }
  assert (Hnophase : forall p a, (os_unlink p, a) ∉ trace phase).
  { intros p a Hin. rewrite Forall_forall in Hclean.
    specialize (Hclean _ Hin). discriminate Hclean. }
  eexists. split; [reflexivity|]. cbn [ret_result ret_changes ret_comment].
  split; [reflexivity|]. split.
  { unfold outcome. cbn [ret_result ret_changes].
    rewrite (decide_False (P := changes = ∅)); [reflexivity|].
    intros Hempty. rewrite Hempty in Hfiles. by rewrite lookup_empty in Hfiles. }
  split; [exact Hdirs|]. split; [exact Hfiles|]. split; [exact Hdom|].
  split; [reflexivity|]. split; [reflexivity|].
  destruct keep.
  - rewrite app_nil_r. split; [split|].
    + intros [a Hin]. by apply Hnophase in Hin.
    + intros Hk. discriminate Hk.
    + intros p a Hin. by apply Hnophase in Hin.
  - split; [split|].
    + reflexivity.
    + intros _. exists ADone. apply elem_of_app. right.
      by apply list_elem_of_singleton.
    + intros p a Hin. apply elem_of_app in Hin as [Hin|Hin].
      * by apply Hnophase in Hin.
      * apply list_elem_of_singleton in Hin. congruence.
Qed.

(** C4 (amended): when the extraction step hands an empty [files] to
    line 165, the call returns [False] with no changes, the presence
    marker is removed through [file.remove] as the last call, and the
    message is ["Can't extract content of <source>"] (capital C), which
    contains the source. *)
Theorem empty_extraction_is_failed (g : Ambient)
    (name source archive_format : string)
    (tar_options source_hash if_missing : option string) (keep : bool)
    (w : W) (files : Files) :
  let phase := run handle
                 (extraction_phase g name source archive_format tar_options
                    source_hash if_missing) w in
  let r := run handle
             (extracted g name source archive_format tar_options
                source_hash if_missing keep) w in
  let m := marker name if_missing in
  value phase = inr files ->
  len files = 0 ->
  exists ret,
    value r = Returned ret
    /\ ret_result ret = Some false
    /\ outcome ret = Failed
    /\ ret_changes ret = ∅
    /\ ret_comment ret = "Can't extract content of " +:+ source
    /\ PyStr.contains source (ret_comment ret) = true
    /\ trace r = trace phase ++ [(file_remove m, ADone)]
    /\ (forall p a, (file_remove p, a) ∈ trace r -> p = m)
    /\ (forall p a, (os_unlink p, a) ∉ trace r).
Proof.
  intros phase r m Hphase Hlen.
  pose proof (phase_deletes_nothing g name source archive_format
                tar_options source_hash if_missing w) as Hclean.
  fold phase in Hclean. rewrite Forall_forall in Hclean.
  destruct (aggregator_failed name source m keep
              (cache_filename g m archive_format) files (final phase) Hlen)
    as [Hval Htr].
  subst r. rewrite (extracted_after_phase _ _ _ _ _ _ _ _ _ files Hphase).
  fold phase m. cbn [value trace]. rewrite Hval, Htr.
  eexists. split; [reflexivity|]. cbn [ret_result ret_changes ret_comment].
  split; [reflexivity|]. split; [reflexivity|]. split; [reflexivity|].
  split; [reflexivity|]. split.
  { pose proof (contains_inside source "Can't extract content of "
                  EmptyString) as Hin.
    by rewrite append_empty_r in Hin. }
  split; [reflexivity|]. split.
  - intros p a Hin. apply elem_of_app in Hin as [Hin|Hin].
    + specialize (Hclean _ Hin). discriminate Hclean.
    + apply list_elem_of_singleton in Hin. congruence.
  - intros p a Hin. apply elem_of_app in Hin as [Hin|Hin].
    + specialize (Hclean _ Hin). discriminate Hclean.
    + apply list_elem_of_singleton in Hin. discriminate Hin.
Qed.

(** ** What a program can call *)

Lemma all_calls_trace {A} (P : Call -> Prop) (p : Prog A) (w : W) :
  all_calls P p ->
  Forall (fun e : Event => P e.1) (trace (run handle p w)).
Proof.
  revert w. induction p as [a|c k IH]; intros w; cbn; [constructor|].
  intros [Hc Hk]. constructor; [exact Hc|]. apply IH, Hk.
Qed.

Lemma all_calls_bind {A B} (P : Call -> Prop) (p : Prog A)
    (f : A -> Prog B) :
  all_calls P p -> (forall a, all_calls P (f a)) -> all_calls P (p ≫= f).
Proof.
  intros Hp Hf. induction p as [a|c k IH]; cbn; [apply Hf|].
  destruct Hp as [Hc Hk]. split; [exact Hc|]. intros r. apply IH, Hk.
Qed.

Lemma all_calls_impl {A} (P Q : Call -> Prop) (p : Prog A) :
  (forall c, P c -> Q c) -> all_calls P p -> all_calls Q p.
Proof.
  intros HPQ. induction p as [a|c k IH]; cbn; [done|].
  intros [Hc Hk]. split; [by apply HPQ|]. intros r. apply IH, Hk.
Qed.

Ltac calls_step :=
  match goal with
  | |- all_calls _ (if ?b then _ else _) => destruct b
  | |- all_calls _ (match ?x with Some _ => _ | None => _ end) => destruct x
  | |- all_calls _ (match ?x with [] => _ | _ :: _ => _ end) =>
      destruct x as [|[? ?] ?]
  | |- all_calls _ (Vis _ _) => split; [try reflexivity|intros ?]
  | |- all_calls _ (Ret _) => exact I
  | |- all_calls _ (mret _) => exact I
  | |- all_calls _ (_ ≫= _) => progress (unfold mbind, Prog_bind)
  | |- all_calls _ (bind _ _) => progress (cbn [bind call])
  end.

(** The verdict only deletes: [os.unlink] or [file.remove]. *)
Lemma aggregator_only_deletes (name source if_missing : string)
    (keep : bool) (filename : string) (files : Files) :
  all_calls (fun c => is_cleanup c = true)
    (outcome_aggregator name source if_missing keep filename files).
Proof. unfold outcome_aggregator. repeat calls_step. Qed.

(** From line 130 on, the extraction step neither fetches nor checks
    for existence nor deletes. *)
Lemma extract_archive_calls (g : Ambient)
    (name source archive_format : string) (tar_options : option string)
    (filename : string) :
  all_calls
    (fun c => is_fetch c = false /\ is_query c = false
              /\ is_cleanup c = false)
    (extract_archive g name source archive_format tar_options filename).
Proof. unfold extract_archive. repeat calls_step; by repeat split. Qed.

(** ** Fetching *)

(** The extraction phase, path by path: the format check, the two
    existence checks of the presence marker, the check of the cache
    file, the preview return, the fetch and what its answer decides
    (lines 79-128), and then lines 130-164. *)
Lemma run_extraction_phase (g : Ambient)
    (name source archive_format : string)
    (tar_options source_hash if_missing : option string) (w : W) :
  let m := marker name if_missing in
  let filename := cache_filename g m archive_format in
  let is_dir := handle (file_directory_exists m) w in
  let is_file := handle (file_file_exists m) is_dir.2 in
  let cached := handle (os_path_exists filename) is_file.2 in
  let data := managed_file g filename source source_hash in
  let fetched := handle (state_high data) cached.2 in
  let checks (c : bool) : list Event :=
    [(file_directory_exists m, ABool false);
     (file_file_exists m, ABool false);
     (os_path_exists filename, ABool c)] in
  let extract :=
    extract_archive g name source archive_format tar_options filename in
  let ret := initial_ret name in
  run handle
    (extraction_phase g name source archive_format tar_options source_hash
       if_missing) w
  = if negb (PyStr.elem archive_format valid_archives) then
      mkRun
        (inl (Returned
           (set_comment
              (name +:+ " is not supported, valids: "
                 +:+ PyStr.join "," valid_archives)
              (set_result (Some false) ret))))
        [] w
    else if is_dir.1 then
      mkRun
        (inl (Returned
           (set_comment (m +:+ " already exists")
              (set_result (Some true) ret))))
        [(file_directory_exists m, ABool true)] is_dir.2
    else if is_file.1 then
      mkRun
        (inl (Returned
           (set_comment (m +:+ " already exists")
              (set_result (Some true) ret))))
        [(file_directory_exists m, ABool false);
         (file_file_exists m, ABool true)] is_file.2
    else if cached.1 then
      prepend (checks true) (run handle extract cached.2)
    else if opts_test g then
      mkRun
        (inl (Returned
           (set_comment
              ("Archive " +:+ source
                 +:+ " would have been downloaded in cache")
              (set_result None ret))))
        (checks false) cached.2
    else
      match fetched.1 with
      | [] =>
          mkRun (inl (Raised IndexError))
            (checks false ++ [(state_high data, AHigh [])]) fetched.2
      | (_, file_result) :: _ =>
          if falsy (ret_result file_result) then
            mkRun (inl (Returned file_result))
              (checks false ++ [(state_high data, AHigh fetched.1)])
              fetched.2
          else
            prepend (checks false ++ [(state_high data, AHigh fetched.1)])
              (run handle extract fetched.2)
      end.
Proof.
  intros m filename is_dir is_file cached data fetched checks extract ret.
  unfold extraction_phase. fold m filename ret.
  destruct (PyStr.elem archive_format valid_archives); cbn [negb]; [|done].
  cbn in *. fold is_dir. destruct (is_dir.1); cbn; [done|].
  fold is_file. destruct (is_file.1); cbn; [done|].
  fold cached. destruct (cached.1); cbn.
  { fold extract. by destruct (run handle extract cached.2). }
  destruct (opts_test g); cbn; [done|].
  fold data fetched.
  destruct (fetched.1) as [|[id file_result] others] eqn:Hfetched; cbn;
    [done|].
  destruct (falsy (ret_result file_result)); cbn; [done|].
  fold extract. by destruct (run handle extract fetched.2).
Qed.

(** The whole call: the trace of the extraction phase, followed by
    nothing when the phase has returned or raised, and by deletions
    only when it has reached the verdict. *)
Lemma extracted_trace (g : Ambient) (name source archive_format : string)
    (tar_options source_hash if_missing : option string) (keep : bool)
    (w : W) :
  let phase := run handle
                 (extraction_phase g name source archive_format tar_options
                    source_hash if_missing) w in
  let r := run handle
             (extracted g name source archive_format tar_options
                source_hash if_missing keep) w in
  exists tail,
    trace r = trace phase ++ tail
    /\ Forall (fun e : Event => is_cleanup e.1 = true) tail
    /\ (forall res, value phase = inl res ->
                    value r = res /\ tail = [] /\ final r = final phase).
Proof.
  intros phase r. subst r. unfold extracted. rewrite run_bind. cbn zeta.
  fold phase. destruct (value phase) as [res|files] eqn:Hphase.
  - exists []. cbn. split; [done|]. split; [constructor|].
    intros res' [= <-]. done.
  - eexists. cbn [trace]. split; [reflexivity|]. split.
    + apply (all_calls_trace (fun c => is_cleanup c = true)),
        aggregator_only_deletes.
    + intros res' [=].
Qed.

Lemma extract_archive_trace (g : Ambient)
    (name source archive_format : string) (tar_options : option string)
    (filename : string) (w : W) :
  Forall (fun e : Event => is_fetch e.1 = false /\ is_query e.1 = false
                           /\ is_cleanup e.1 = false)
    (trace (run handle
              (extract_archive g name source archive_format tar_options
                 filename) w)).
Proof.
  apply (all_calls_trace
           (fun c => is_fetch c = false /\ is_query c = false
                     /\ is_cleanup c = false)),
    extract_archive_calls.
Qed.

(** A fetch in the trace of the extraction phase: the format is
    supported, the presence marker and the cache file are absent, this
    is not a preview, the declaration is the one of lines 108-119, and
    the answer is the collaborator's. *)
Lemma fetch_in_phase (g : Ambient) (name source archive_format : string)
    (tar_options source_hash if_missing : option string) (w : W)
    (data : HighData) (answered : list (string * StateRet)) :
  let m := marker name if_missing in
  let filename := cache_filename g m archive_format in
  let is_dir := handle (file_directory_exists m) w in
  let is_file := handle (file_file_exists m) is_dir.2 in
  let cached := handle (os_path_exists filename) is_file.2 in
  let fetched :=
    handle (state_high (managed_file g filename source source_hash))
      cached.2 in
  (state_high data, AHigh answered)
    ∈ trace (run handle
               (extraction_phase g name source archive_format tar_options
                  source_hash if_missing) w) ->
  PyStr.elem archive_format valid_archives = true
  /\ is_dir.1 = false /\ is_file.1 = false /\ cached.1 = false
  /\ opts_test g = false
  /\ data = managed_file g filename source source_hash
  /\ answered = fetched.1.
Proof.
  intros m filename is_dir is_file cached fetched.
  rewrite run_extraction_phase. cbn zeta.
  fold m filename is_dir is_file cached fetched.
  pose proof (extract_archive_trace g name source archive_format
                tar_options filename) as Hextract.
  assert (Hrest : forall w',
    (state_high data, AHigh answered)
      ∉ trace (run handle
                 (extract_archive g name source archive_format tar_options
                    filename) w')).
  { intros w' Hin. specialize (Hextract w').
    rewrite Forall_forall in Hextract.
    destruct (Hextract _ Hin) as [Hfetch _]. discriminate Hfetch. }
  destruct (PyStr.elem archive_format valid_archives); cbn [negb trace];
    [|by intros ?%elem_of_nil].
  destruct (is_dir.1); cbn [trace].
  { intros Hin. repeat (apply elem_of_cons in Hin as [Hin|Hin];
                        [discriminate Hin|]). by apply elem_of_nil in Hin. }
  destruct (is_file.1); cbn [trace].
  { intros Hin. repeat (apply elem_of_cons in Hin as [Hin|Hin];
                        [discriminate Hin|]). by apply elem_of_nil in Hin. }
  destruct (cached.1); cbn [trace prepend].
  { intros Hin. apply elem_of_app in Hin as [Hin|Hin];
      [|by apply Hrest in Hin].
    repeat (apply elem_of_cons in Hin as [Hin|Hin]; [discriminate Hin|]).
    by apply elem_of_nil in Hin. }
  destruct (opts_test g); cbn [trace].
  { intros Hin. repeat (apply elem_of_cons in Hin as [Hin|Hin];
                        [discriminate Hin|]). by apply elem_of_nil in Hin. }
  assert (Hhere : forall tail,
    (state_high data, AHigh answered)
      ∈ [(file_directory_exists m, ABool false);
         (file_file_exists m, ABool false);
         (os_path_exists filename, ABool false)]
        ++ (state_high (managed_file g filename source source_hash),
            AHigh fetched.1) :: tail ->
    (state_high data, AHigh answered) ∉ tail ->
    data = managed_file g filename source source_hash
    /\ answered = fetched.1).
  { intros tail Hin Htail. apply elem_of_app in Hin as [Hin|Hin].
    - repeat (apply elem_of_cons in Hin as [Hin|Hin]; [discriminate Hin|]).
      by apply elem_of_nil in Hin.
    - apply elem_of_cons in Hin as [Hin|Hin]; [|done].
      by injection Hin as -> ->. }
  destruct (fetched.1) as [|[id file_result] others] eqn:Hfetched.
  { cbn [trace]. intros Hin.
    destruct (Hhere [] Hin) as [-> ->]; [by intros ?%elem_of_nil|done]. }
  destruct (falsy (ret_result file_result)); cbn [trace prepend].
  { intros Hin.
    destruct (Hhere [] Hin) as [-> ->]; [by intros ?%elem_of_nil|done]. }
  intros Hin. rewrite <- app_assoc in Hin.
  destruct (Hhere _ Hin) as [-> ->]; [apply Hrest|done].
Qed.

(** C6: when the fetch collaborator ([state.high]) has answered and the
    first state return of its answer has a false or [None] result, the
    call returns exactly that state return; the fetch is the last
    collaborator call, it has been made once, and only the three
    existence checks come before it. *)
Theorem fetch_failure_is_passed_through (g : Ambient)
    (name source archive_format : string)
    (tar_options source_hash if_missing : option string) (keep : bool)
    (w : W) (data : HighData) (answered : list (string * StateRet))
    (id : string) (file_result : StateRet)
    (others : list (string * StateRet)) :
  let r := run handle
             (extracted g name source archive_format tar_options
                source_hash if_missing keep) w in
  (state_high data, AHigh answered) ∈ trace r ->
  answered = (id, file_result) :: others ->
  falsy (ret_result file_result) = true ->
  value r = Returned file_result
  /\ (exists before,
        trace r = before ++ [(state_high data, AHigh answered)]
        /\ only_queries before)
  /\ length (filter (fun e : Event => is_fetch e.1 = true) (trace r)) = 1.
Proof.
  intros r Hin Hanswered Hfalsy.
  destruct (extracted_trace g name source archive_format tar_options
              source_hash if_missing keep w)
    as (tail & Htrace & Htail & Hreturned).
  fold r in Htrace, Hreturned.
  assert (Hphase :
    (state_high data, AHigh answered)
      ∈ trace (run handle
                 (extraction_phase g name source archive_format tar_options
                    source_hash if_missing) w)).
  { rewrite Htrace in Hin. apply elem_of_app in Hin as [Hin|Hin]; [done|].
    rewrite Forall_forall in Htail. specialize (Htail _ Hin).
    discriminate Htail. }
  apply fetch_in_phase in Hphase
    as (Hfmt & Hd & Hf & Hc & Htest & Hdata & Hfetched).
  pose proof (run_extraction_phase g name source archive_format tar_options
                source_hash if_missing w) as Hrun.
  cbn zeta in Hrun.
  rewrite Hfmt, Hd, Hf, Hc, Htest, <- Hfetched, <- Hdata, Hanswered in Hrun.
  cbn [negb] in Hrun. rewrite Hfalsy in Hrun.
  rewrite <- Hanswered in Hrun.
  destruct (Hreturned (Returned file_result)) as (Hvalue & -> & _);
    [by rewrite Hrun|].
  rewrite app_nil_r in Htrace. rewrite Hrun in Htrace. cbn [trace] in Htrace.
  split; [exact Hvalue|]. rewrite Htrace. split.
  - eexists. split; [reflexivity|]. repeat constructor.
  - reflexivity.
Qed.

(** ** The extraction step *)

(** Lines 130-164, path by path. *)
Lemma run_extract_archive (g : Ambient)
    (name source archive_format : string) (tar_options : option string)
    (filename : string) (w : W) :
  let ret := initial_ret name in
  let made := handle (file_makedirs name) w in
  let made_event : Event := (file_makedirs name, ADone) in
  run handle
    (extract_archive g name source archive_format tar_options filename) w
  = if opts_test g then
      mkRun
        (inl (Returned
           (set_comment
              ("Archive " +:+ source +:+ " would have been extracted in "
                 +:+ name)
              (set_result None ret))))
        [] w
    else if PyStr.elem archive_format ["zip"; "rar"] then
      let un := handle (archive_un archive_format filename name) made.2 in
      mkRun (inr (FNames un.1))
        [made_event;
         (archive_un archive_format filename name, ANames un.1)]
        un.2
    else
      match tar_options with
      | None =>
          let opened := handle (tarfile_open filename "r") made.2 in
          let names := handle (tar_getnames filename) opened.2 in
          let unpacked :=
            handle (tar_extractall filename name) names.2 in
          let closed := handle (tar_close filename) unpacked.2 in
          mkRun (inr (FNames names.1))
            [made_event;
             (tarfile_open filename "r", ADone);
             (tar_getnames filename, ANames names.1);
             (tar_extractall filename name, ADone);
             (tar_close filename, ADone)]
            closed.2
      | Some tar_options =>
          let command :=
            tar_command (normalize_tar_options tar_options) filename in
          let ran := handle (cmd_run_all command name) made.2 in
          let ran_event : Event := (cmd_run_all command name, ACmd ran.1) in
          if negb (Z.eqb (retcode ran.1) 0) then
            mkRun
              (inl (Returned
                 (set_changes (results_dict ran.1)
                    (set_result (Some false) ret))))
              [made_event; ran_event] ran.2
          else
            let probe := handle (cmd_retcode bsdtar_probe) ran.2 in
            let captured :=
              if Z.eqb probe.1 0 then stderr ran.1 else stdout ran.1 in
            mkRun
              (inr (FOutput
                 (if Nat.eqb (String.length captured) 0
                  then "no tar output so far" else captured)))
              [made_event; ran_event;
               (cmd_retcode bsdtar_probe, AInt probe.1)]
              probe.2
      end.
Proof.
  intros ret made made_event. unfold extract_archive. fold ret.
  destruct (opts_test g); [done|].
  destruct (PyStr.elem archive_format ["zip"; "rar"]); [done|].
  destruct tar_options as [o|]; [|done]. cbn.
  destruct (negb _); done.
Qed.

(** Either the extraction phase ends before line 130, having made only
    existence checks and at most the fetch, or it is those calls
    followed by lines 130-164. *)
Lemma phase_shape (g : Ambient) (name source archive_format : string)
    (tar_options source_hash if_missing : option string) (w : W) :
  let phase := run handle
                 (extraction_phase g name source archive_format tar_options
                    source_hash if_missing) w in
  let filename :=
    cache_filename g (marker name if_missing) archive_format in
  let early (e : Event) := is_query e.1 = true \/ is_fetch e.1 = true in
  (exists res, value phase = inl res /\ Forall early (trace phase))
  \/ (exists events w',
        phase
        = prepend events
            (run handle
               (extract_archive g name source archive_format tar_options
                  filename) w')
        /\ Forall early events).
Proof.
  intros phase filename early. subst phase.
  rewrite run_extraction_phase. cbn zeta. fold filename.
  assert (Hq : forall c a, is_query c = true -> early (c, a))
    by (intros; by left).
  assert (Hf : forall c a, is_fetch c = true -> early (c, a))
    by (intros; by right).
  destruct (PyStr.elem archive_format valid_archives); cbn [negb];
    [|left; eexists; split; [reflexivity|constructor]].
  repeat match goal with
         | |- context [if ?b then _ else _] => destruct b
         end;
    try (left; eexists; split; [reflexivity|]; cbn [trace];
         repeat (constructor; [by apply Hq|]); constructor);
    try (right; do 2 eexists; split; [reflexivity|];
         repeat (constructor; [by apply Hq|]); constructor).
  destruct (handle (state_high _) _).1 as [|[id file_result] others].
  - left. eexists. split; [reflexivity|]. cbn [trace app].
    repeat (constructor; [by apply Hq|]).
    constructor; [by apply Hf|constructor].
  - destruct (falsy (ret_result file_result)).
    + left. eexists. split; [reflexivity|]. cbn [trace app].
      repeat (constructor; [by apply Hq|]).
      constructor; [by apply Hf|constructor].
    + right. do 2 eexists. split; [reflexivity|]. cbn [app].
      repeat (constructor; [by apply Hq|]).
      constructor; [by apply Hf|constructor].
Qed.

Ltac not_in_trace H :=
  repeat (apply elem_of_cons in H as [H|H]; [discriminate H|]);
  by apply elem_of_nil in H.

(** A run of the tar executable in the trace of a call: [tar_options]
    is set, the command is [tar], the normalized options and the quoted
    cache file, run in [name]; and the extraction phase is some early
    calls, [file.makedirs], the tool, and -- when the tool succeeds --
    the probe for bsdtar. *)
Lemma tar_tool_in_trace (g : Ambient) (name source archive_format : string)
    (tar_options source_hash if_missing : option string) (keep : bool)
    (w : W) (cmd cwd : string) (results : CmdResult) :
  let phase := run handle
                 (extraction_phase g name source archive_format tar_options
                    source_hash if_missing) w in
  let r := run handle
             (extracted g name source archive_format tar_options
                source_hash if_missing keep) w in
  let filename :=
    cache_filename g (marker name if_missing) archive_format in
  let early (e : Event) := is_query e.1 = true \/ is_fetch e.1 = true in
  let ran : list Event :=
    [(file_makedirs name, ADone); (cmd_run_all cmd cwd, ACmd results)] in
  (cmd_run_all cmd cwd, ACmd results) ∈ trace r ->
  exists options events,
    tar_options = Some options
    /\ cmd = tar_command (normalize_tar_options options) filename
    /\ cwd = name
    /\ Forall early events
    /\ if negb (Z.eqb (retcode results) 0) then
         value phase
         = inl (Returned
                  (set_changes (results_dict results)
                     (set_result (Some false) (initial_ret name))))
         /\ trace phase = events ++ ran
       else
         exists probe : Z,
           let captured :=
             if Z.eqb probe 0 then stderr results else stdout results in
           value phase
           = inr (FOutput
                    (if Nat.eqb (String.length captured) 0
                     then "no tar output so far" else captured))
           /\ trace phase
              = events ++ ran ++ [(cmd_retcode bsdtar_probe, AInt probe)].
Proof.
  intros phase r filename early ran Hin.
  destruct (extracted_trace g name source archive_format tar_options
              source_hash if_missing keep w)
    as (tail & Htrace & Htail & _).
  fold r phase in Htrace. rewrite Htrace in Hin.
  apply elem_of_app in Hin as [Hin|Hin]; cycle 1.
  { rewrite Forall_forall in Htail. specialize (Htail _ Hin).
    discriminate Htail. }
  destruct (phase_shape g name source archive_format tar_options
              source_hash if_missing w)
    as [(res & _ & Hearly)|(events & w' & Hphase & Hearly)].
  { fold phase in Hearly. rewrite Forall_forall in Hearly.
    destruct (Hearly _ Hin) as [H|H]; discriminate H. }
  fold phase filename in Hphase. rewrite Hphase in Hin |- *.
  cbn [prepend trace value] in Hin |- *.
  apply elem_of_app in Hin as [Hin|Hin].
  { rewrite Forall_forall in Hearly.
    destruct (Hearly _ Hin) as [H|H]; discriminate H. }
  rewrite run_extract_archive in Hin |- *. cbn zeta in Hin |- *.
  destruct (opts_test g); [by apply elem_of_nil in Hin|].
  destruct (PyStr.elem archive_format ["zip"; "rar"]);
    [cbn [trace] in Hin; not_in_trace Hin|].
  destruct tar_options as [options|]; [|cbn [trace] in Hin; not_in_trace Hin].
  exists options, events.
  set (made := handle (file_makedirs name) w') in *.
  set (command := tar_command (normalize_tar_options options) filename) in *.
  set (answer := handle (cmd_run_all command name) made.2) in *.
  assert (Hsame : cmd = command /\ cwd = name /\ results = answer.1).
  { destruct (negb (retcode answer.1 =? 0)%Z); cbn [trace] in Hin.
    - apply elem_of_cons in Hin as [Hin|Hin]; [discriminate Hin|].
      apply elem_of_cons in Hin as [Hin|Hin];
        [by injection Hin as -> -> ->|by apply elem_of_nil in Hin].
    - apply elem_of_cons in Hin as [Hin|Hin]; [discriminate Hin|].
      apply elem_of_cons in Hin as [Hin|Hin];
        [by injection Hin as -> -> ->|not_in_trace Hin]. }
  destruct Hsame as (-> & -> & ->).
  split; [done|]. split; [done|]. split; [done|]. split; [done|].
  destruct (negb (retcode answer.1 =? 0)%Z); cbn [trace value].
  - done.
  - eexists. split; reflexivity.
Qed.

(** C8: when the tar executable has been run and has answered with a
    non-zero exit code, the call returns [False] with the tool's answer
    (exit code, standard output, standard error) as its changes and an
    empty message; the tool is the last collaborator call, and neither
    the cache file nor the presence marker is deleted. *)
Theorem tar_tool_failure_stops (g : Ambient)
    (name source archive_format : string)
    (tar_options source_hash if_missing : option string) (keep : bool)
    (w : W) (cmd cwd : string) (results : CmdResult) :
  let r := run handle
             (extracted g name source archive_format tar_options
                source_hash if_missing keep) w in
  (cmd_run_all cmd cwd, ACmd results) ∈ trace r ->
  retcode results <> 0%Z ->
  exists ret,
    value r = Returned ret
    /\ ret_result ret = Some false
    /\ outcome ret = Failed
    /\ ret_changes ret = results_dict results
    /\ ret_changes ret !! "retcode" = Some (PInt (retcode results))
    /\ ret_changes ret !! "stdout" = Some (PStr (stdout results))
    /\ ret_changes ret !! "stderr" = Some (PStr (stderr results))
    /\ ret_comment ret = EmptyString
    /\ (exists before,
          trace r = before ++ [(cmd_run_all cmd cwd, ACmd results)])
    /\ Forall (fun e : Event => is_cleanup e.1 = false) (trace r).
Proof.
  intros r Hin Hcode.
  destruct (tar_tool_in_trace g name source archive_format tar_options
              source_hash if_missing keep w cmd cwd results Hin)
    as (options & events & _ & _ & _ & _ & Hrun).
  apply Z.eqb_neq in Hcode. rewrite Hcode in Hrun. cbn [negb] in Hrun.
  destruct Hrun as [Hvalue Hphase].
  destruct (extracted_trace g name source archive_format tar_options
              source_hash if_missing keep w)
    as (tail & Htrace & _ & Hreturned).
  destruct (Hreturned _ Hvalue) as (Hr & -> & _). fold r in Hr, Htrace.
  rewrite app_nil_r in Htrace.
  eexists. split; [exact Hr|].
  cbn [ret_result ret_changes ret_comment set_changes set_result
       initial_ret].
  split; [reflexivity|]. split; [reflexivity|]. split; [reflexivity|].
  unfold results_dict.
  split; [by rewrite lookup_insert_eq|].
  split; [by rewrite lookup_insert_ne, lookup_insert_eq by done|].
  split; [by rewrite !lookup_insert_ne, lookup_insert_eq by done|].
  split; [reflexivity|]. rewrite Htrace. split.
  - rewrite Hphase. exists (events ++ [(file_makedirs name, ADone)]).
    by rewrite <- app_assoc.
  - apply phase_deletes_nothing.
Qed.

(** C9: when the tar executable has been run and has answered with
    exit code zero, the call always returns [True] with changes: the
    text kept as [extracted_files] is the captured stream, or the
    placeholder when that stream is empty, so it is never empty, and
    [file.remove] is never called. *)
Theorem tar_tool_success_is_changed (g : Ambient)
    (name source archive_format : string)
    (tar_options source_hash if_missing : option string) (keep : bool)
    (w : W) (cmd cwd : string) (results : CmdResult) :
  let r := run handle
             (extracted g name source archive_format tar_options
                source_hash if_missing keep) w in
  (cmd_run_all cmd cwd, ACmd results) ∈ trace r ->
  retcode results = 0%Z ->
  exists ret output,
    value r = Returned ret
    /\ ret_result ret = Some true
    /\ outcome ret = Changed
    /\ ret_changes ret !! "extracted_files" = Some (PStr output)
    /\ output <> EmptyString
    /\ (output = stdout results \/ output = stderr results
        \/ (output = "no tar output so far"
            /\ (stdout results = EmptyString
                \/ stderr results = EmptyString)))
    /\ (forall p a, (file_remove p, a) ∉ trace r).
Proof.
  intros r Hin Hcode.
  destruct (tar_tool_in_trace g name source archive_format tar_options
              source_hash if_missing keep w cmd cwd results Hin)
    as (options & events & _ & _ & _ & _ & Hrun).
  rewrite Hcode in Hrun. cbn [Z.eqb negb] in Hrun.
  destruct Hrun as (probe & Hvalue & _). cbn zeta in Hvalue.
  set (captured := if (probe =? 0)%Z then stderr results
                   else stdout results) in Hvalue.
  set (output := if Nat.eqb (String.length captured) 0
                 then "no tar output so far" else captured) in Hvalue.
  assert (Hnonempty : len (FOutput output) <> 0).
  { cbn [len]. subst output.
    destruct (Nat.eqb (String.length captured) 0) eqn:E; [done|].
    by apply Nat.eqb_neq in E. }
  pose proof (phase_deletes_nothing g name source archive_format
                tar_options source_hash if_missing w) as Hclean.
  rewrite Forall_forall in Hclean.
  destruct (aggregator_changed name source (marker name if_missing) keep
              (cache_filename g (marker name if_missing) archive_format)
              (FOutput output)
              (final (run handle
                        (extraction_phase g name source archive_format
                           tar_options source_hash if_missing) w))
              Hnonempty) as [Hverdict Htail].
  subst r.
  rewrite (extracted_after_phase _ _ _ _ _ _ _ _ _ (FOutput output) Hvalue).
  cbn [value trace]. rewrite Hverdict, Htail.
  eexists. exists output. split; [reflexivity|].
  cbn [ret_result ret_changes]. split; [reflexivity|].
  assert (Hfiles :
    <["extracted_files" := files_val (FOutput output)]>
      (<["directories_created" :=
           PList (if negb (String.eqb (marker name if_missing) name)
                  then [name] ++ [marker name if_missing] else [name])]>
         (∅ : gmap string pyval))
    !! "extracted_files" = Some (PStr output))
    by (by rewrite lookup_insert_eq).
  split.
  { unfold outcome. cbn [ret_result ret_changes].
    rewrite decide_False; [reflexivity|].
    intros Hempty. rewrite Hempty in Hfiles.
    by rewrite lookup_empty in Hfiles. }
  split; [exact Hfiles|]. split.
  { intros Hout. by rewrite Hout in Hnonempty. }
  split.
  { subst output captured.
    destruct (probe =? 0)%Z;
      destruct (String.length _) eqn:Hlength; cbn [Nat.eqb]; auto.
    - right. right. split; [done|]. right.
      by destruct (stderr results).
    - right. right. split; [done|]. left.
      by destruct (stdout results). }
  intros p a Hp. apply elem_of_app in Hp as [Hp|Hp].
  - specialize (Hclean _ Hp). discriminate Hclean.
  - destruct keep; [by apply elem_of_nil in Hp|].
    apply list_elem_of_singleton in Hp. discriminate Hp.
Qed.

(** ** Tar options *)

Lemma normalize_tar_options_unfold (tar_options : string) :
  normalize_tar_options tar_options
  = (if PyStr.contains "f" tar_options then EmptyString else "-f ")
      +:+ (if PyStr.contains "x" tar_options then EmptyString else "-x ")
      +:+ tar_options.
Proof.
  unfold normalize_tar_options. cbn [fold_left].
  destruct (PyStr.contains "x" tar_options) eqn:Hx; cbn [negb].
  - by destruct (PyStr.contains "f" tar_options).
  - change ("-" +:+ "x" +:+ " " +:+ tar_options)
      with ("-x " +:+ tar_options).
    rewrite (contains_char_skip "f" "-x " tar_options) by reflexivity.
    by destruct (PyStr.contains "f" tar_options).
Qed.

(** C7: the normalized options contain an [x] and an [f]; each of the
    two flags is put in front, as [-x ] and then [-f ], exactly when
    the character is absent from the given options, which are kept as
    the end of the result; ["J"] becomes ["-f -x J"]; and whenever the
    tar executable is run, it is run in [name] on the normalized
    options and the quoted cache file. *)
Theorem tar_options_are_normalized (tar_options : string) :
  let normalized := normalize_tar_options tar_options in
  PyStr.contains "x" normalized = true
  /\ PyStr.contains "f" normalized = true
  /\ normalized
     = (if PyStr.contains "f" tar_options then EmptyString else "-f ")
         +:+ (if PyStr.contains "x" tar_options then EmptyString
              else "-x ")
         +:+ tar_options
  /\ normalize_tar_options "J" = "-f -x J"
  /\ PyStr.contains "J" (normalize_tar_options "J") = true
  /\ (forall (g : Ambient) (name source archive_format : string)
             (source_hash if_missing : option string) (keep : bool)
             (w : W) (cmd cwd : string) (results : CmdResult),
        (cmd_run_all cmd cwd, ACmd results)
          ∈ trace (run handle
                     (extracted g name source archive_format
                        (Some tar_options) source_hash if_missing keep) w) ->
        cmd = "tar " +:+ normalized +:+ " " +:+ PyStr.dquote
                +:+ cache_filename g (marker name if_missing) archive_format
                +:+ PyStr.dquote
        /\ cwd = name).
Proof.
  intros normalized. subst normalized.
  split; [|split; [|split; [|split; [|split]]]].
  - rewrite normalize_tar_options_unfold.
    destruct (PyStr.contains "x" tar_options) eqn:Hx.
    + by apply contains_later, contains_later.
    + apply contains_later. apply (contains_inside "x" "-" " ").
  - rewrite normalize_tar_options_unfold.
    destruct (PyStr.contains "f" tar_options) eqn:Hf.
    + by apply contains_later, contains_later.
    + apply (contains_inside "f" "-" " ").
  - apply normalize_tar_options_unfold.
  - reflexivity.
  - reflexivity.
  - intros g name source archive_format source_hash if_missing keep w
      cmd cwd results Hin.
    destruct (tar_tool_in_trace g name source archive_format
                (Some tar_options) source_hash if_missing keep w cmd cwd
                results Hin)
      as (options & events & [= <-] & -> & -> & _).
    done.
Qed.

End WithWorld.

(** * Runs on the model file system *)

(** The existence checks of the model file system change nothing. *)
Lemma fake_query_pure : query_pure Fake.handle.
Proof. intros c w Hq. by destruct c. Qed.

Lemma not_supported_7z : "7z" ∉ ["tar"; "zip"; "rar"].
Proof. rewrite !elem_of_cons, elem_of_nil. by intros [?|[?|[?|?]]]. Qed.

Lemma supported_tar : "tar" ∈ ["tar"; "zip"; "rar"].
Proof. apply list_elem_of_here. Qed.

Lemma supported_zip : "zip" ∈ ["tar"; "zip"; "rar"].
Proof. apply list_elem_of_further, list_elem_of_here. Qed.

(** The event at a position of a trace is in the trace. *)
Ltac in_trace n :=
  apply (list_elem_of_lookup_2 _ n); vm_compute; reflexivity.

(** C1 as first worded does not hold: the marker ["/opt/app"] exists, and a
    request for the format ["7z"] is answered with a failure and another
    message. *)
Lemma marker_present_unsupported_format :
  let w := Fake.done_already in
  let r := run Fake.handle
             (extracted (Fake.ambient false) "/opt/app" "salt://app.7z" "7z"
                None None None false) w in
  (Fake.handle (file_directory_exists (marker "/opt/app" None)) w).1 = true
  /\ exists ret,
       value r = Returned ret
       /\ ret_result ret = Some false
       /\ outcome ret = Failed
       /\ ret_comment ret <> marker "/opt/app" None +:+ " already exists".
Proof.
  split; [reflexivity|].
  eexists. split; [reflexivity|]. split; [reflexivity|].
  split; [reflexivity|]. vm_compute. discriminate.
Qed.

(** C2 as first worded does not hold: in preview mode, with the marker
    absent, a request for the format ["7z"] is answered with a failure, not
    with the preview result. *)
Lemma preview_unsupported_format :
  let g := Fake.ambient true in
  let w := Fake.fresh in
  let r := run Fake.handle
             (extracted g "/opt/app" "salt://app.7z" "7z" None None None
                false) w in
  opts_test g = true
  /\ (Fake.handle (file_directory_exists (marker "/opt/app" None)) w).1
     = false
  /\ (Fake.handle (file_file_exists (marker "/opt/app" None)) w).1 = false
  /\ exists ret,
       value r = Returned ret
       /\ ret_result ret = Some false
       /\ ret_result ret <> None
       /\ outcome ret = Failed.
Proof.
  split; [reflexivity|]. split; [reflexivity|]. split; [reflexivity|].
  eexists. split; [reflexivity|]. split; [reflexivity|].
  split; [discriminate|reflexivity].
Qed.

(** C4 as first worded does not hold: for an archive with no entry the
    message starts with a capital letter. *)
Lemma empty_extraction_message_is_capitalized :
  let w := Fake.empty_archive in
  let g := Fake.ambient false in
  let phase := run Fake.handle
                 (extraction_phase g "/opt/app" "salt://app.zip" "zip" None
                    None None) w in
  let r := run Fake.handle
             (extracted g "/opt/app" "salt://app.zip" "zip" None None None
                false) w in
  value phase = inr (FNames [])
  /\ exists ret,
       value r = Returned ret
       /\ outcome ret = Failed
       /\ ret_comment ret = "Can't extract content of salt://app.zip"
       /\ ret_comment ret <> "can't extract content of salt://app.zip".
Proof.
  split; [by vm_compute|].
  eexists. split; [by vm_compute|]. split; [reflexivity|].
  split; [reflexivity|]. vm_compute. discriminate.
Qed.

(** C5 on the format ["7z"], with the marker in place. *)
Lemma unsupported_format_fails_first_on_7z :
  let r := run Fake.handle
             (extracted (Fake.ambient false) "/opt/app" "salt://app.7z" "7z"
                None None None false) Fake.done_already in
  ("7z" ∉ ["tar"; "zip"; "rar"])
  /\ exists ret,
       value r = Returned ret
       /\ outcome ret = Failed
       /\ trace r = []
       /\ final r = Fake.done_already.
Proof.
  split; [exact not_supported_7z|].
  destruct (unsupported_format_fails_first Fake.handle (Fake.ambient false)
              "/opt/app" "salt://app.7z" "7z" None None None false
              Fake.done_already not_supported_7z)
    as (ret & Hv & _ & Ho & _ & Ht & Hf).
  by exists ret.
Defined.

(** C10 on the format ["7z"]. *)
Lemma unsupported_format_message_on_7z :
  ("7z" ∉ ["tar"; "zip"; "rar"])
  /\ exists ret,
       value (run Fake.handle
                (extracted (Fake.ambient false) "/opt/app" "salt://app.7z"
                   "7z" None None None false) Fake.fresh) = Returned ret
       /\ ret_comment ret
          = "/opt/app" +:+ " is not supported, valids: tar,rar,zip".
Proof.
  split; [exact not_supported_7z|].
  destruct (unsupported_format_message_names_target Fake.handle
              (Fake.ambient false) "/opt/app" "salt://app.7z" "7z" None None
              None false Fake.fresh not_supported_7z)
    as (ret & Hv & _ & Hc).
  by exists ret.
Defined.

(** C1 on a target that is there already. *)
Lemma marker_present_is_satisfied_on_done_already :
  let w := Fake.done_already in
  let r := run Fake.handle
             (extracted (Fake.ambient false) "/opt/app" "salt://app.tar"
                "tar" None None None false) w in
  (Fake.handle (file_directory_exists (marker "/opt/app" None)) w).1 = true
  /\ exists ret,
       value r = Returned ret
       /\ outcome ret = Satisfied
       /\ ret_comment ret = marker "/opt/app" None +:+ " already exists"
       /\ only_queries (trace r)
       /\ final r = w.
Proof.
  split; [reflexivity|].
  destruct (marker_present_is_satisfied Fake.handle (Fake.ambient false)
              "/opt/app" "salt://app.tar" "tar" None None None false
              Fake.done_already supported_tar (or_introl eq_refl))
    as (ret & Hv & _ & _ & Ho & Hc & _ & Hq & _ & Hf).
  exists ret. split_and!; [done..|]. exact (Hf fake_query_pure).
Defined.

(** C2 on a fresh target in preview mode. *)
Lemma preview_only_checks_on_fresh :
  let g := Fake.ambient true in
  let w := Fake.fresh in
  let r := run Fake.handle
             (extracted g "/opt/app" "salt://app.tar" "tar" None None None
                false) w in
  opts_test g = true
  /\ (Fake.handle (file_directory_exists (marker "/opt/app" None)) w).1
     = false
  /\ (Fake.handle (file_file_exists (marker "/opt/app" None)) w).1 = false
  /\ exists ret,
       value r = Returned ret
       /\ ret_result ret = None
       /\ only_queries (trace r)
       /\ nothing_done (trace r)
       /\ final r = w.
Proof.
  split; [reflexivity|]. split; [reflexivity|]. split; [reflexivity|].
  destruct (preview_only_checks Fake.handle (Fake.ambient true) "/opt/app"
              "salt://app.tar" "tar" None None None false Fake.fresh
              supported_tar eq_refl eq_refl eq_refl)
    as (ret & Hv & Hr & _ & _ & _ & _ & Hq & Hn & Hf).
  exists ret. split_and!; [done..|]. exact (Hf fake_query_pure).
Defined.

(** C3 on a tar archive of two files, the cache file not kept. *)
Lemma nonempty_extraction_is_changed_on_fresh :
  let g := Fake.ambient false in
  let w := Fake.fresh in
  let files := FNames ["a.txt"; "b.txt"] in
  let phase := run Fake.handle
                 (extraction_phase g "/opt/app" "salt://app.tar" "tar" None
                    None None) w in
  let r := run Fake.handle
             (extracted g "/opt/app" "salt://app.tar" "tar" None None None
                false) w in
  value phase = inr files
  /\ len files <> 0
  /\ exists ret,
       value r = Returned ret
       /\ outcome ret = Changed
       /\ ret_changes ret !! "extracted_files" = Some (files_val files)
       /\ ret_comment ret = "salt://app.tar" +:+ " extracted in " +:+ "/opt/app".
Proof.
  assert (Hphase :
    value (run Fake.handle
             (extraction_phase (Fake.ambient false) "/opt/app"
                "salt://app.tar" "tar" None None None) Fake.fresh)
    = inr (FNames ["a.txt"; "b.txt"])) by (vm_compute; reflexivity).
  assert (Hlen : len (FNames ["a.txt"; "b.txt"]) <> 0) by discriminate.
  split; [exact Hphase|]. split; [exact Hlen|].
  destruct (nonempty_extraction_is_changed Fake.handle (Fake.ambient false)
              "/opt/app" "salt://app.tar" "tar" None None None false
              Fake.fresh _ Hphase Hlen)
    as (ret & Hv & _ & Ho & _ & Hfiles & _ & Hc & _).
  by exists ret.
Defined.

(** C4 on a zip archive with no entry. *)
Lemma empty_extraction_is_failed_on_empty_archive :
  let g := Fake.ambient false in
  let w := Fake.empty_archive in
  let phase := run Fake.handle
                 (extraction_phase g "/opt/app" "salt://app.zip" "zip" None
                    None None) w in
  let r := run Fake.handle
             (extracted g "/opt/app" "salt://app.zip" "zip" None None None
                false) w in
  value phase = inr (FNames [])
  /\ len (FNames []) = 0
  /\ exists ret,
       value r = Returned ret
       /\ outcome ret = Failed
       /\ ret_comment ret = "Can't extract content of " +:+ "salt://app.zip"
       /\ trace r = trace phase ++ [(file_remove (marker "/opt/app" None), ADone)].
Proof.
  assert (Hphase :
    value (run Fake.handle
             (extraction_phase (Fake.ambient false) "/opt/app"
                "salt://app.zip" "zip" None None None) Fake.empty_archive)
    = inr (FNames [])) by (vm_compute; reflexivity).
  split; [exact Hphase|]. split; [reflexivity|].
  destruct (empty_extraction_is_failed Fake.handle (Fake.ambient false)
              "/opt/app" "salt://app.zip" "zip" None None None false
              Fake.empty_archive _ Hphase eq_refl)
    as (ret & Hv & _ & Ho & _ & Hc & _ & Ht & _).
  by exists ret.
Defined.

(** C6 on a source that cannot be fetched. *)
Lemma fetch_failure_is_passed_through_on_unreachable :
  let g := Fake.ambient false in
  let r := run Fake.handle
             (extracted g "/opt/app" "salt://app.zip" "zip" None None None
                false) Fake.unreachable in
  let filename := cache_filename g (marker "/opt/app" None) "zip" in
  let data := managed_file g filename "salt://app.zip" None in
  let file_result :=
    mkStateRet filename (Some false) ∅ "Source file not found" in
  (state_high data, AHigh [(filename, file_result)]) ∈ trace r
  /\ falsy (ret_result file_result) = true
  /\ value r = Returned file_result
  /\ length (filter (fun e : Event => is_fetch e.1 = true) (trace r)) = 1.
Proof.
  assert (Hin :
    (state_high
       (managed_file (Fake.ambient false)
          (cache_filename (Fake.ambient false) (marker "/opt/app" None) "zip")
          "salt://app.zip" None),
     AHigh
       [(cache_filename (Fake.ambient false) (marker "/opt/app" None) "zip",
         mkStateRet
           (cache_filename (Fake.ambient false) (marker "/opt/app" None)
              "zip")
           (Some false) ∅ "Source file not found")])
    ∈ trace (run Fake.handle
               (extracted (Fake.ambient false) "/opt/app" "salt://app.zip"
                  "zip" None None None false) Fake.unreachable))
    by in_trace 3.
  split; [exact Hin|]. split; [reflexivity|].
  destruct (fetch_failure_is_passed_through Fake.handle (Fake.ambient false)
              "/opt/app" "salt://app.zip" "zip" None None None false
              Fake.unreachable _ _ _ _ [] Hin eq_refl eq_refl)
    as (Hv & _ & Hn).
  by split.
Defined.

(** C8 on a tar executable that exits with 2. *)
Lemma tar_tool_failure_stops_on_broken_tool :
  let g := Fake.ambient false in
  let r := run Fake.handle
             (extracted g "/opt/app" "salt://app.tar" "tar" (Some "J") None
                None false) Fake.broken_tool in
  let filename := cache_filename g (marker "/opt/app" None) "tar" in
  let cmd := tar_command (normalize_tar_options "J") filename in
  (cmd_run_all cmd "/opt/app", ACmd Fake.failing) ∈ trace r
  /\ retcode Fake.failing <> 0%Z
  /\ exists ret,
       value r = Returned ret
       /\ outcome ret = Failed
       /\ ret_changes ret = results_dict Fake.failing
       /\ Forall (fun e : Event => is_cleanup e.1 = false) (trace r).
Proof.
  assert (Hin :
    (cmd_run_all
       (tar_command (normalize_tar_options "J")
          (cache_filename (Fake.ambient false) (marker "/opt/app" None)
             "tar"))
       "/opt/app", ACmd Fake.failing)
    ∈ trace (run Fake.handle
               (extracted (Fake.ambient false) "/opt/app" "salt://app.tar"
                  "tar" (Some "J") None None false) Fake.broken_tool))
    by in_trace 5.
  assert (Hrc : retcode Fake.failing <> 0%Z) by discriminate.
  split; [exact Hin|]. split; [exact Hrc|].
  destruct (tar_tool_failure_stops Fake.handle (Fake.ambient false)
              "/opt/app" "salt://app.tar" "tar" (Some "J") None None false
              Fake.broken_tool _ _ _ Hin Hrc)
    as (ret & Hv & _ & Ho & Hch & _ & _ & _ & _ & _ & Hcl).
  by exists ret.
Defined.

(** C9 on a tar executable that exits with 0 and prints nothing. *)
Lemma tar_tool_success_is_changed_on_fresh :
  let g := Fake.ambient false in
  let r := run Fake.handle
             (extracted g "/opt/app" "salt://app.tar" "tar" (Some "J") None
                None false) Fake.fresh in
  let filename := cache_filename g (marker "/opt/app" None) "tar" in
  let cmd := tar_command (normalize_tar_options "J") filename in
  (cmd_run_all cmd "/opt/app", ACmd Fake.quiet) ∈ trace r
  /\ retcode Fake.quiet = 0%Z
  /\ exists ret output,
       value r = Returned ret
       /\ outcome ret = Changed
       /\ ret_changes ret !! "extracted_files" = Some (PStr output)
       /\ output <> EmptyString.
Proof.
  assert (Hin :
    (cmd_run_all
       (tar_command (normalize_tar_options "J")
          (cache_filename (Fake.ambient false) (marker "/opt/app" None)
             "tar"))
       "/opt/app", ACmd Fake.quiet)
    ∈ trace (run Fake.handle
               (extracted (Fake.ambient false) "/opt/app" "salt://app.tar"
                  "tar" (Some "J") None None false) Fake.fresh))
    by in_trace 5.
  split; [exact Hin|]. split; [reflexivity|].
  destruct (tar_tool_success_is_changed Fake.handle (Fake.ambient false)
              "/opt/app" "salt://app.tar" "tar" (Some "J") None None false
              Fake.fresh _ _ _ Hin eq_refl)
    as (ret & output & Hv & _ & Ho & Hfiles & Hne & _).
  by exists ret, output.
Defined.

(** * More of the function *)

Section MoreOfTheCode.
Context {W : Type}.
Variable handle : forall c : Call, W -> Resp c * W.

(** ** Footprint *)

Ltac footprint_step :=
  match goal with
  | |- all_calls _ (if ?b then _ else _) => destruct b
  | |- all_calls _ (match ?x with Some _ => _ | None => _ end) => destruct x
  | |- all_calls _ (match ?x with [] => _ | _ :: _ => _ end) =>
      destruct x as [|[? ?] ?]
  | |- all_calls _ (Vis _ _) =>
      split; [unfold in_footprint; eauto|intros ?]
  | |- all_calls _ (Ret _) => exact I
  | |- all_calls _ (mret _) => exact I
  | |- all_calls _ (_ ≫= _) => progress (unfold mbind, Prog_bind)
  | |- all_calls _ (bind (if ?b then _ else _) _) => destruct b
  | |- all_calls ?P (bind (mret ?a) ?f) =>
      change (all_calls P (f a)); cbn beta iota
  | |- all_calls _ (bind _ _) => progress (cbn [bind call])
  end.

(** X7: whatever the collaborators answer, every call of [extracted]
    stays within the footprint of the request. *)
Theorem calls_stay_in_footprint (g : Ambient)
    (name source archive_format : string)
    (tar_options source_hash if_missing : option string) (keep : bool)
    (w : W) :
  Forall
    (fun e : Event =>
       in_footprint g name source archive_format tar_options source_hash
         if_missing e.1)
    (trace (run handle
              (extracted g name source archive_format tar_options
                 source_hash if_missing keep) w)).
Proof.
  apply (all_calls_trace handle
           (in_footprint g name source archive_format tar_options
              source_hash if_missing)).
  unfold extracted. apply all_calls_bind.
  - unfold extraction_phase, extract_archive. repeat footprint_step.
  - intros [res|files]; [exact I|].
    unfold outcome_aggregator. repeat footprint_step.
Qed.

(** ** Preview mode *)

Lemma preview_phase (g : Ambient) (name source archive_format : string)
    (tar_options source_hash if_missing : option string) (w : W) :
  opts_test g = true ->
  let phase := run handle
                 (extraction_phase g name source archive_format tar_options
                    source_hash if_missing) w in
  exists ret,
    value phase = inl (Returned ret)
    /\ ret_name ret = name
    /\ ret_changes ret = ∅
    /\ only_queries (trace phase)
    /\ length (trace phase) <= 3.
Proof.
  intros Htest phase. subst phase.
  rewrite run_extraction_phase. cbv zeta.
  rewrite run_extract_archive, Htest. cbv zeta.
  repeat match goal with
         | |- context [if ?b then _ else _] => destruct b eqn:?
         end;
    (eexists; split_and!; [reflexivity..| |];
     [repeat constructor|cbn [trace prepend length app]; lia]).
Qed.

(** X1: in preview mode the function only asks: whatever the format, the
    marker and the cache, its calls are existence checks, at most three,
    nothing is fetched, extracted, written or deleted, and it returns a
    record for the target with no change. *)
Theorem preview_never_acts (g : Ambient) (name source archive_format : string)
    (tar_options source_hash if_missing : option string) (keep : bool)
    (w : W) :
  opts_test g = true ->
  let r := run handle
             (extracted g name source archive_format tar_options source_hash
                if_missing keep) w in
  only_queries (trace r)
  /\ nothing_done (trace r)
  /\ length (trace r) <= 3
  /\ (query_pure handle -> final r = w)
  /\ exists ret,
       value r = Returned ret /\ ret_name ret = name /\ ret_changes ret = ∅.
Proof.
  intros Htest r.
  destruct (preview_phase g name source archive_format tar_options
              source_hash if_missing w Htest)
    as (ret & Hv & Hn & Hc & Hq & Hlen).
  destruct (extracted_trace handle g name source archive_format tar_options
              source_hash if_missing keep w)
    as (tail & Ht & _ & Hres).
  destruct (Hres _ Hv) as (Hr & -> & Hf).
  rewrite app_nil_r in Ht. fold r in Ht, Hr, Hf.
  assert (Hqr : only_queries (trace r)) by (by rewrite Ht).
  split_and!.
  - exact Hqr.
  - by apply only_queries_nothing_done.
  - by rewrite Ht.
  - intros Hpure. by apply queries_keep_world.
  - by exists ret.
Qed.

(** ** The fetch *)

Ltac by_cases :=
  repeat match goal with
         | |- context [if ?b then _ else _] => destruct b eqn:?
         | |- context [match ?x with [] => _ | _ :: _ => _ end] =>
             destruct x as [|[? ?] ?] eqn:?
         | |- context [match ?x with Some _ => _ | None => _ end] =>
             destruct x eqn:?
         end.

(** An event that is no deletion is an event of the extraction phase. *)
Lemma kept_event_in_phase (g : Ambient) (name source archive_format : string)
    (tar_options source_hash if_missing : option string) (keep : bool)
    (w : W) (e : Event) :
  is_cleanup e.1 = false ->
  e ∈ trace (run handle
               (extracted g name source archive_format tar_options
                  source_hash if_missing keep) w) ->
  e ∈ trace (run handle
               (extraction_phase g name source archive_format tar_options
                  source_hash if_missing) w).
Proof.
  intros Hkept Hin.
  destruct (extracted_trace handle g name source archive_format tar_options
              source_hash if_missing keep w)
    as (tail & Htrace & Htail & _).
  rewrite Htrace in Hin. apply elem_of_app in Hin as [Hin|Hin]; [done|].
  rewrite Forall_forall in Htail. specialize (Htail _ Hin). congruence.
Qed.

(** The extraction phase of a call that fetches: three checks answered
    with no, the fetch, and what its answer leads to. *)
Lemma phase_after_fetch (g : Ambient) (name source archive_format : string)
    (tar_options source_hash if_missing : option string) (w : W)
    (data : HighData) (answered : list (string * StateRet)) :
  let m := marker name if_missing in
  let filename := cache_filename g m archive_format in
  let phase := run handle
                 (extraction_phase g name source archive_format tar_options
                    source_hash if_missing) w in
  let asked : list Event :=
    [(file_directory_exists m, ABool false);
     (file_file_exists m, ABool false);
     (os_path_exists filename, ABool false);
     (state_high data, AHigh answered)] in
  (state_high data, AHigh answered) ∈ trace phase ->
  exists w',
    phase
    = match answered with
      | [] => mkRun (inl (Raised IndexError)) asked w'
      | (_, file_result) :: _ =>
          if falsy (ret_result file_result) then
            mkRun (inl (Returned file_result)) asked w'
          else
            prepend asked
              (run handle
                 (extract_archive g name source archive_format tar_options
                    filename) w')
      end.
Proof.
  intros m filename phase asked Hin. subst phase.
  apply fetch_in_phase in Hin
    as (Hfmt & Hd & Hf & Hc & Htest & Hdata & Hfetched).
  rewrite run_extraction_phase. cbn zeta.
  fold m filename in Hd, Hf, Hc, Hdata, Hfetched |- *.
  rewrite Hfmt, Hd, Hf, Hc, Htest, <- Hfetched, <- Hdata.
  cbn [negb]. eexists. by_cases; reflexivity.
Qed.

(** X2: a fetch is made only for a supported format, outside preview
    mode, when the marker is neither a directory nor a file and the cache
    file is not there; it is the fourth call, the only fetch of the run,
    and it declares the cache file as a managed file of the source. *)
Theorem fetch_only_when_needed (g : Ambient)
    (name source archive_format : string)
    (tar_options source_hash if_missing : option string) (keep : bool)
    (w : W) (data : HighData) (answered : list (string * StateRet)) :
  let m := marker name if_missing in
  let filename := cache_filename g m archive_format in
  let is_dir := handle (file_directory_exists m) w in
  let is_file := handle (file_file_exists m) is_dir.2 in
  let cached := handle (os_path_exists filename) is_file.2 in
  let r := run handle
             (extracted g name source archive_format tar_options source_hash
                if_missing keep) w in
  (state_high data, AHigh answered) ∈ trace r ->
  archive_format ∈ ["tar"; "zip"; "rar"]
  /\ opts_test g = false
  /\ is_dir.1 = false /\ is_file.1 = false /\ cached.1 = false
  /\ data
     = mkHighData filename "file" "managed" filename source source_hash true
         (env g)
  /\ take 4 (trace r)
     = [(file_directory_exists m, ABool false);
        (file_file_exists m, ABool false);
        (os_path_exists filename, ABool false);
        (state_high data, AHigh answered)]
  /\ Forall (fun e : Event => is_fetch e.1 = false) (drop 4 (trace r)).
Proof.
  intros m filename is_dir is_file cached r Hin.
  apply kept_event_in_phase in Hin; [|reflexivity].
  pose proof Hin as Hshape. apply phase_after_fetch in Hshape as [w' Hshape].
  apply fetch_in_phase in Hin
    as (Hfmt & Hd & Hf & Hc & Htest & Hdata & Hfetched).
  destruct (extracted_trace handle g name source archive_format tar_options
              source_hash if_missing keep w)
    as (tail & Htrace & Htail & _).
  fold r in Htrace. fold m filename in Hshape.
  assert (Hphase : exists rest,
    trace (run handle
             (extraction_phase g name source archive_format tar_options
                source_hash if_missing) w)
    = [(file_directory_exists m, ABool false);
       (file_file_exists m, ABool false);
       (os_path_exists filename, ABool false);
       (state_high data, AHigh answered)] ++ rest
    /\ Forall (fun e : Event => is_fetch e.1 = false) rest).
  { rewrite Hshape. destruct answered as [|[id file_result] others].
    - by exists [].
    - destruct (falsy (ret_result file_result)); [by exists []|].
      eexists. split; [reflexivity|].
      eapply Forall_impl; [apply extract_archive_trace|].
      by intros e (? & _). }
  destruct Hphase as (rest & Hphase & Hrest).
  split_and!; try done.
  - by apply supported_spec, elem_spec.
  - rewrite Htrace, Hphase. reflexivity.
  - rewrite Htrace, Hphase. cbn [drop app]. apply Forall_app. split; [done|].
    eapply Forall_impl; [exact Htail|]. intros [c a] He. by destruct c.
Qed.

Ltac in_list H :=
  repeat (apply elem_of_cons in H as [H|H]; [try discriminate H|]);
  try (by apply elem_of_nil in H).

(** The extraction step asks no question. *)
Lemma extract_asks_nothing (g : Ambient) (name source archive_format : string)
    (tar_options : option string) (filename : string) (w : W) (e : Event) :
  is_query e.1 = true ->
  e ∉ trace (run handle
               (extract_archive g name source archive_format tar_options
                  filename) w).
Proof.
  intros Hq Hin.
  pose proof (extract_archive_trace handle g name source archive_format
                tar_options filename w) as Hextract.
  rewrite Forall_forall in Hextract.
  destruct (Hextract _ Hin) as (_ & ? & _). congruence.
Qed.

(** X3: when the cache check says yes, it is the check of the cache file
    of the request, and nothing is fetched in the whole call. *)
Theorem cached_archive_is_not_fetched (g : Ambient)
    (name source archive_format : string)
    (tar_options source_hash if_missing : option string) (keep : bool)
    (w : W) (p : string) :
  let filename :=
    cache_filename g (marker name if_missing) archive_format in
  let r := run handle
             (extracted g name source archive_format tar_options source_hash
                if_missing keep) w in
  (os_path_exists p, ABool true) ∈ trace r ->
  p = filename
  /\ Forall (fun e : Event => is_fetch e.1 = false) (trace r)
  /\ take 3 (calls (trace r))
     = [file_directory_exists (marker name if_missing);
        file_file_exists (marker name if_missing);
        os_path_exists filename].
Proof.
  intros filename r Hin.
  apply kept_event_in_phase in Hin; [|reflexivity].
  destruct (extracted_trace handle g name source archive_format tar_options
              source_hash if_missing keep w)
    as (tail & Htrace & Htail & _).
  fold r in Htrace. rewrite Htrace. revert Hin.
  pose proof (extract_archive_trace handle g name source archive_format
                tar_options filename) as Hextract.
  rewrite run_extraction_phase. cbn zeta. fold filename.
  by_cases; cbn [negb trace prepend]; intros Hin;
    try (apply elem_of_app in Hin as [Hin|Hin]); in_list Hin.
  - injection Hin as ->. split; [done|]. split; [|reflexivity].
    repeat (apply Forall_app; split).
    + repeat constructor.
    + eapply Forall_impl; [apply Hextract|]. by intros e (? & _).
    + eapply Forall_impl; [exact Htail|]. intros [c a] He. by destruct c.
  - by apply extract_asks_nothing in Hin.
  - by apply extract_asks_nothing in Hin.
Qed.

(** The verdict always returns a record for the target, with a result
    that is [True] or [False]. *)
Lemma verdict_returns (name source if_missing : string) (keep : bool)
    (filename : string) (files : Files) (w : W) :
  exists ret,
    value (run handle
             (outcome_aggregator name source if_missing keep filename files)
             w) = Returned ret
    /\ ret_name ret = name
    /\ ret_result ret <> None.
Proof.
  destruct (decide (len files = 0)) as [Hlen|Hlen].
  - destruct (aggregator_failed handle name source if_missing keep filename
                files w Hlen) as [Hv _].
    eexists. split; [exact Hv|]. by split.
  - destruct (aggregator_changed handle name source if_missing keep filename
                files w Hlen) as [Hv _].
    eexists. split; [exact Hv|]. by split.
Qed.

(** Outside preview mode the extraction step makes the target directory
    first, and what it returns by itself is a failure for the target. *)
Lemma extract_starts_with_makedirs (g : Ambient)
    (name source archive_format : string) (tar_options : option string)
    (filename : string) (w : W) :
  opts_test g = false ->
  let step := run handle
                (extract_archive g name source archive_format tar_options
                   filename) w in
  (exists rest, trace step = (file_makedirs name, ADone) :: rest)
  /\ forall res, value step = inl res ->
       exists ret,
         res = Returned ret /\ ret_name ret = name
         /\ ret_result ret = Some false.
Proof.
  intros Htest step. subst step.
  rewrite run_extract_archive, Htest. cbn zeta.
  by_cases; cbn [trace value]; (split; [by eexists|]);
    intros res [= <-]; by eexists.
Qed.

(** What the extraction step returns by itself is a record for the
    target. *)
Lemma extract_returns_record (g : Ambient)
    (name source archive_format : string) (tar_options : option string)
    (filename : string) (w : W) (res : PyResult) :
  value (run handle
           (extract_archive g name source archive_format tar_options
              filename) w) = inl res ->
  exists ret, res = Returned ret /\ ret_name ret = name.
Proof.
  rewrite run_extract_archive. cbn zeta.
  by_cases; cbn [value]; intros [= <-]; by eexists.
Qed.

(** X4: the call raises [IndexError] exactly when [state.high] answers
    with an empty dictionary; the trace then ends with the fetch, after
    the three existence checks. *)
Theorem empty_fetch_answer_raises (g : Ambient)
    (name source archive_format : string)
    (tar_options source_hash if_missing : option string) (keep : bool)
    (w : W) :
  let r := run handle
             (extracted g name source archive_format tar_options source_hash
                if_missing keep) w in
  (value r = Raised IndexError
   <-> exists data, (state_high data, AHigh []) ∈ trace r)
  /\ (forall data,
        (state_high data, AHigh []) ∈ trace r ->
        exists before,
          trace r = before ++ [(state_high data, AHigh [])]
          /\ only_queries before).
Proof.
  intros r.
  destruct (extracted_trace handle g name source archive_format tar_options
              source_hash if_missing keep w)
    as (tail & Htrace & Htail & Hreturned).
  fold r in Htrace, Hreturned.
  assert (Hempty : forall data,
    (state_high data, AHigh []) ∈ trace r ->
    value r = Raised IndexError
    /\ exists before,
         trace r = before ++ [(state_high data, AHigh [])]
         /\ only_queries before).
  { intros data Hin.
    apply kept_event_in_phase in Hin; [|reflexivity].
    apply phase_after_fetch in Hin as [w' Hphase].
    destruct (Hreturned (Raised IndexError)) as (Hv & -> & _);
      [by rewrite Hphase|].
    split; [exact Hv|].
    rewrite Htrace, Hphase, app_nil_r. cbn [trace].
    eexists [_; _; _]. split; [reflexivity|]. repeat constructor. }
  split; [split|].
  - intros Hraised.
    destruct (value (run handle
                       (extraction_phase g name source archive_format
                          tar_options source_hash if_missing) w))
      as [res|files] eqn:Hphase.
    + destruct (Hreturned _ eq_refl) as (Hv & -> & _).
      rewrite Hraised in Hv. subst res.
      rewrite Htrace, app_nil_r. revert Hphase.
      rewrite run_extraction_phase. cbn zeta.
      by_cases; cbn [value prepend trace]; try discriminate.
      all: intros Hstep;
        first [ by apply extract_returns_record in Hstep as (? & ? & _)
              | eexists; apply elem_of_app; right; apply list_elem_of_here ].
    + pose proof (extracted_after_phase handle g name source archive_format
                    tar_options source_hash if_missing keep w files Hphase)
        as Hrun.
      cbn zeta in Hrun. fold r in Hrun.
      destruct (verdict_returns name source (marker name if_missing) keep
                  (cache_filename g (marker name if_missing) archive_format)
                  files
                  (final (run handle
                            (extraction_phase g name source archive_format
                               tar_options source_hash if_missing) w)))
        as (ret & Hv & _).
      rewrite Hrun in Hraised. cbn [value] in Hraised. congruence.
  - intros [data Hin]. by apply Hempty in Hin as [? _].
  - intros data Hin. by apply Hempty in Hin as [_ ?].
Qed.

(** X5: after a fetch whose first record reports success the call goes on
    in the same run: its fifth call makes the target directory, and it
    returns a record for the target whose result is [True] or [False]. *)
Theorem successful_fetch_is_extracted (g : Ambient)
    (name source archive_format : string)
    (tar_options source_hash if_missing : option string) (keep : bool)
    (w : W) (data : HighData) (id : string) (file_result : StateRet)
    (others : list (string * StateRet)) :
  let r := run handle
             (extracted g name source archive_format tar_options source_hash
                if_missing keep) w in
  (state_high data, AHigh ((id, file_result) :: others)) ∈ trace r ->
  falsy (ret_result file_result) = false ->
  trace r !! 4 = Some (file_makedirs name, ADone)
  /\ exists ret,
       value r = Returned ret /\ ret_name ret = name
       /\ ret_result ret <> None.
Proof.
  intros r Hin Htruthy.
  apply kept_event_in_phase in Hin; [|reflexivity].
  pose proof Hin as Hphase. apply phase_after_fetch in Hphase as [w' Hphase].
  apply fetch_in_phase in Hin as (_ & _ & _ & _ & Htest & _).
  rewrite Htruthy in Hphase.
  destruct (extract_starts_with_makedirs g name source archive_format
              tar_options
              (cache_filename g (marker name if_missing) archive_format) w'
              Htest)
    as ([rest Hstep] & Hfailed).
  destruct (extracted_trace handle g name source archive_format tar_options
              source_hash if_missing keep w)
    as (tail & Htrace & _ & Hreturned).
  fold r in Htrace, Hreturned.
  split.
  - rewrite Htrace, Hphase. cbn [prepend trace]. by rewrite Hstep.
  - destruct (value (run handle
                       (extract_archive g name source archive_format
                          tar_options
                          (cache_filename g (marker name if_missing)
                             archive_format)) w'))
      as [res|files] eqn:Hvalue.
    + destruct (Hfailed _ eq_refl) as (ret & -> & Hname & Hresult).
      destruct (Hreturned (Returned ret)) as (Hv & _);
        [by rewrite Hphase|].
      exists ret. split; [done|]. split; [done|]. by rewrite Hresult.
    + assert (Hfiles :
        value (run handle
                 (extraction_phase g name source archive_format tar_options
                    source_hash if_missing) w) = inr files)
        by (by rewrite Hphase).
      pose proof (extracted_after_phase handle g name source archive_format
                    tar_options source_hash if_missing keep w files Hfiles)
        as Hrun.
      cbn zeta in Hrun. fold r in Hrun. rewrite Hrun. cbn [value].
      apply verdict_returns.
Qed.

(** X16: a record the call returns is either one it built, which names
    the target and has the result [None] only in preview mode, or the
    first record of a fetch that failed. *)
Theorem returned_record_is_for_target (g : Ambient)
    (name source archive_format : string)
    (tar_options source_hash if_missing : option string) (keep : bool)
    (w : W) (ret : StateRet) :
  let r := run handle
             (extracted g name source archive_format tar_options source_hash
                if_missing keep) w in
  value r = Returned ret ->
  (ret_name ret = name /\ (ret_result ret = None -> opts_test g = true))
  \/ (exists data id others,
        (state_high data, AHigh ((id, ret) :: others)) ∈ trace r
        /\ falsy (ret_result ret) = true).
Proof.
  intros r Hv.
  destruct (extracted_trace handle g name source archive_format tar_options
              source_hash if_missing keep w)
    as (tail & Htrace & _ & Hreturned).
  fold r in Htrace, Hreturned.
  destruct (value (run handle
                     (extraction_phase g name source archive_format
                        tar_options source_hash if_missing) w))
    as [res|files] eqn:Hphase.
  - destruct (Hreturned _ eq_refl) as (Hres & -> & _).
    rewrite Hv in Hres. subst res.
    rewrite Htrace, app_nil_r. revert Hphase.
    rewrite run_extraction_phase. cbn zeta.
    rewrite !run_extract_archive. cbn zeta.
    by_cases; cbn [value prepend]; intros [= <-];
      first [ left; split; [reflexivity|];
              intros Hnone; first [reflexivity|discriminate Hnone]
            | right; eexists _, _, _; split; [|eassumption];
              apply elem_of_app; right; apply list_elem_of_here ].
  - pose proof (extracted_after_phase handle g name source archive_format
                  tar_options source_hash if_missing keep w files Hphase)
      as Hrun.
    cbn zeta in Hrun. fold r in Hrun.
    destruct (verdict_returns name source (marker name if_missing) keep
                (cache_filename g (marker name if_missing) archive_format)
                files
                (final (run handle
                          (extraction_phase g name source archive_format
                             tar_options source_hash if_missing) w)))
      as (built & Hbuilt & Hname & Hresult).
    rewrite Hrun in Hv. cbn [value] in Hv. rewrite Hbuilt in Hv.
    injection Hv as <-. left. split; [done|]. by intros ?.
Qed.

(** ** The extraction step *)

(** An event of a call that is neither a check, nor the fetch, nor a
    deletion is an event of the extraction step, which then follows
    checks and fetch in the extraction phase. *)
Lemma step_event_in_step (g : Ambient) (name source archive_format : string)
    (tar_options source_hash if_missing : option string) (keep : bool)
    (w : W) (e : Event) :
  let filename :=
    cache_filename g (marker name if_missing) archive_format in
  let phase := run handle
                 (extraction_phase g name source archive_format tar_options
                    source_hash if_missing) w in
  let early (e : Event) := is_query e.1 = true \/ is_fetch e.1 = true in
  is_query e.1 = false -> is_fetch e.1 = false -> is_cleanup e.1 = false ->
  e ∈ trace (run handle
               (extracted g name source archive_format tar_options
                  source_hash if_missing keep) w) ->
  exists events w',
    let step := run handle
                  (extract_archive g name source archive_format tar_options
                     filename) w' in
    phase = prepend events step
    /\ Forall early events
    /\ e ∈ trace step.
Proof.
  intros filename phase early Hq Hf Hc Hin.
  apply kept_event_in_phase in Hin; [|exact Hc].
  assert (Hlate : ~ early e) by (intros [?|?]; congruence).
  destruct (phase_shape handle g name source archive_format tar_options
              source_hash if_missing w)
    as [(res & _ & Hearly)|(events & w' & Hphase & Hearly)].
  - rewrite Forall_forall in Hearly. by apply Hearly in Hin.
  - exists events, w'. split; [exact Hphase|]. split; [exact Hearly|].
    rewrite Hphase in Hin. cbn [prepend trace] in Hin.
    apply elem_of_app in Hin as [Hin|Hin]; [|exact Hin].
    rewrite Forall_forall in Hearly. by apply Hearly in Hin.
Qed.

(** Among the supported formats, the ones with an unpacker of their own
    are the ones that are not tar. *)
Lemma unpacker_or_tar (archive_format : string) :
  PyStr.elem archive_format valid_archives = true ->
  PyStr.elem archive_format ["zip"; "rar"]
  = negb (String.eqb archive_format "tar").
Proof.
  unfold PyStr.elem, valid_archives. cbn [existsb].
  destruct (String.eqb_spec archive_format "tar") as [->|_]; [done|].
  destruct (String.eqb_spec archive_format "rar") as [->|_]; [done|].
  by destruct (String.eqb_spec archive_format "zip") as [->|_].
Qed.

(** A call beyond the three checks is made for a supported format
    only. *)
Lemma event_needs_supported_format (g : Ambient)
    (name source archive_format : string)
    (tar_options source_hash if_missing : option string) (keep : bool)
    (w : W) (e : Event) :
  e ∈ trace (run handle
               (extracted g name source archive_format tar_options
                  source_hash if_missing keep) w) ->
  PyStr.elem archive_format valid_archives = true.
Proof.
  destruct (PyStr.elem archive_format valid_archives) eqn:Hfmt; [done|].
  intros Hin.
  destruct (extracted_trace handle g name source archive_format tar_options
              source_hash if_missing keep w)
    as (tail & Htrace & _ & Hreturned).
  revert Htrace Hreturned. rewrite run_extraction_phase. cbn zeta.
  rewrite Hfmt. cbn [negb value trace]. intros Htrace Hreturned.
  destruct (Hreturned _ eq_refl) as (_ & -> & _).
  rewrite Htrace in Hin. by apply elem_of_nil in Hin.
Qed.

(** X10: when the names of a tar archive are read, the request is for the
    format tar with no tar option, the archive is the cache file, and the
    extraction step is: make the target directory, open the archive for
    reading, read its names, extract everything into the target, close.
    The names are what the step hands on. *)
Theorem python_tarfile_unpacks_all (g : Ambient)
    (name source archive_format : string)
    (tar_options source_hash if_missing : option string) (keep : bool)
    (w : W) (archive : string) (names : list string) :
  let filename :=
    cache_filename g (marker name if_missing) archive_format in
  let phase := run handle
                 (extraction_phase g name source archive_format tar_options
                    source_hash if_missing) w in
  let r := run handle
             (extracted g name source archive_format tar_options source_hash
                if_missing keep) w in
  (tar_getnames archive, ANames names) ∈ trace r ->
  archive_format = "tar"
  /\ tar_options = None
  /\ opts_test g = false
  /\ archive = filename
  /\ value phase = inr (FNames names)
  /\ exists before,
       trace phase
       = before
           ++ [(file_makedirs name, ADone);
               (tarfile_open filename "r", ADone);
               (tar_getnames filename, ANames names);
               (tar_extractall filename name, ADone);
               (tar_close filename, ADone)]
       /\ Forall (fun e : Event => is_query e.1 = true \/ is_fetch e.1 = true)
            before.
Proof.
  intros filename phase r Hin.
  pose proof (event_needs_supported_format _ _ _ _ _ _ _ _ _ _ Hin) as Hfmt.
  apply step_event_in_step in Hin as (events & w' & Hphase & Hearly & Hin);
    [|reflexivity..].
  cbn zeta in Hphase, Hin. fold filename in Hphase, Hin. fold phase in Hphase.
  revert Hphase Hin.
  rewrite run_extract_archive, (unpacker_or_tar _ Hfmt). cbn zeta.
  destruct (String.eqb_spec archive_format "tar") as [Htar|_]; cbn [negb];
    by_cases; cbn [trace]; intros Hphase Hin; in_list Hin.
  injection Hin as -> ->.
  rewrite Hphase. cbn [prepend value trace]. split_and!; try done.
  by exists events.
Qed.

(** X11: an unpacker is only called for the formats zip and rar, it is
    the unpacker of the requested format, called once on the cache file
    and the target right after the target directory is made, outside
    preview mode, and the names it answers are what the step hands on. *)
Theorem unpacker_is_chosen_by_format (g : Ambient)
    (name source archive_format : string)
    (tar_options source_hash if_missing : option string) (keep : bool)
    (w : W) (fmt archive dest : string) (names : list string) :
  let filename :=
    cache_filename g (marker name if_missing) archive_format in
  let phase := run handle
                 (extraction_phase g name source archive_format tar_options
                    source_hash if_missing) w in
  let r := run handle
             (extracted g name source archive_format tar_options source_hash
                if_missing keep) w in
  (archive_un fmt archive dest, ANames names) ∈ trace r ->
  fmt = archive_format
  /\ archive_format ∈ ["zip"; "rar"]
  /\ opts_test g = false
  /\ archive = filename
  /\ dest = name
  /\ value phase = inr (FNames names)
  /\ exists before,
       trace phase
       = before
           ++ [(file_makedirs name, ADone);
               (archive_un archive_format filename name, ANames names)]
       /\ Forall (fun e : Event => is_query e.1 = true \/ is_fetch e.1 = true)
            before.
Proof.
  intros filename phase r Hin.
  apply step_event_in_step in Hin as (events & w' & Hphase & Hearly & Hin);
    [|reflexivity..].
  cbn zeta in Hphase, Hin. fold filename in Hphase, Hin. fold phase in Hphase.
  revert Hphase Hin. rewrite run_extract_archive. cbn zeta.
  destruct (PyStr.elem archive_format ["zip"; "rar"]) eqn:Hfmt;
    by_cases; cbn [trace]; intros Hphase Hin; in_list Hin.
  injection Hin as -> -> -> ->.
  rewrite Hphase. cbn [prepend value trace]. split_and!; try done.
  - by apply elem_spec.
  - by exists events.
Qed.

(** X12: when the probe for bsdtar is in the trace, the tar executable
    has been run before it and has exited with 0, the probe is
    [tar --version | grep bsdtar], and its exit code selects what is
    reported as extracted files: the standard error of the run when it is
    0, the standard output otherwise, and the text
    [no tar output so far] when the selected one is empty. *)
Theorem bsdtar_probe_selects_output (g : Ambient)
    (name source archive_format : string)
    (tar_options source_hash if_missing : option string) (keep : bool)
    (w : W) (probe : string) (code : Z) :
  let r := run handle
             (extracted g name source archive_format tar_options source_hash
                if_missing keep) w in
  (cmd_retcode probe, AInt code) ∈ trace r ->
  probe = bsdtar_probe
  /\ exists (cmd : string) (results : CmdResult) (ret : StateRet),
       let captured :=
         if Z.eqb code 0 then stderr results else stdout results in
       (cmd_run_all cmd name, ACmd results) ∈ trace r
       /\ retcode results = 0%Z
       /\ value r = Returned ret
       /\ ret_result ret = Some true
       /\ ret_changes ret !! "extracted_files"
          = Some (PStr (if Nat.eqb (String.length captured) 0
                        then "no tar output so far" else captured)).
Proof.
  intros r Hin.
  pose proof Hin as Hstep.
  apply step_event_in_step in Hstep
    as (events & w' & Hphase & Hearly & Hstep); [|reflexivity..].
  cbn zeta in Hphase, Hstep. revert Hphase Hstep.
  rewrite run_extract_archive. cbn zeta.
  destruct (opts_test g); [cbn [trace]; intros _ Hstep; in_list Hstep|].
  destruct (PyStr.elem archive_format ["zip"; "rar"]);
    [cbn [trace]; intros _ Hstep; in_list Hstep|].
  destruct tar_options as [s|]; [|cbn [trace]; intros _ Hstep; in_list Hstep].
  destruct (negb (Z.eqb (retcode _) 0)) eqn:Hcode;
    cbn [trace]; intros Hphase Hstep; in_list Hstep.
  injection Hstep as -> ->.
  split; [reflexivity|].
  match type of Hphase with
  | context [(cmd_run_all ?c _, ACmd ?res)] =>
      set (cmd := c) in *; set (results := res) in *
  end.
  match type of Hphase with
  | context [FOutput ?out] => set (output := out) in *
  end.
  assert (Hvalue :
    value (run handle
             (extraction_phase g name source archive_format (Some s)
                source_hash if_missing) w) = inr (FOutput output))
    by (by rewrite Hphase).
  assert (Hnonempty : len (FOutput output) <> 0).
  { cbn [len]. subst output.
    match goal with
    | |- context [Nat.eqb ?n 0] => destruct (Nat.eqb n 0) eqn:E
    end; [done|]. by apply Nat.eqb_neq in E. }
  destruct (aggregator_changed handle name source (marker name if_missing)
              keep
              (cache_filename g (marker name if_missing) archive_format)
              (FOutput output)
              (final (run handle
                        (extraction_phase g name source archive_format
                           (Some s) source_hash if_missing) w))
              Hnonempty) as [Hverdict _].
  pose proof (extracted_after_phase handle g name source archive_format
                (Some s) source_hash if_missing keep w (FOutput output)
                Hvalue) as Hrun.
  cbn zeta in Hrun. fold r in Hrun.
  exists cmd, results. eexists. cbn zeta. split_and!.
  - rewrite Hrun. cbn [trace]. rewrite Hphase. cbn [prepend trace].
    apply elem_of_app. left. apply elem_of_app. right.
    apply list_elem_of_further, list_elem_of_here.
  - by apply negb_false_iff, Z.eqb_eq in Hcode.
  - rewrite Hrun. cbn [value]. exact Hverdict.
  - reflexivity.
  - cbn [ret_changes]. by rewrite lookup_insert_eq.
Qed.

(** X9: for the formats zip and rar the tar options play no part: the
    run is the run of the same request without them. *)
Theorem tar_options_ignored_by_unpackers (g : Ambient)
    (name source archive_format : string)
    (tar_options source_hash if_missing : option string) (keep : bool)
    (w : W) :
  archive_format ∈ ["zip"; "rar"] ->
  run handle
    (extracted g name source archive_format tar_options source_hash
       if_missing keep) w
  = run handle
      (extracted g name source archive_format None source_hash if_missing
         keep) w.
Proof.
  intros Hfmt. apply elem_spec in Hfmt.
  assert (Hstep : forall w',
    run handle
      (extract_archive g name source archive_format tar_options
         (cache_filename g (marker name if_missing) archive_format)) w'
    = run handle
        (extract_archive g name source archive_format None
           (cache_filename g (marker name if_missing) archive_format)) w').
  { intros w'. rewrite !run_extract_archive, Hfmt. reflexivity. }
  assert (Hphase :
    run handle
      (extraction_phase g name source archive_format tar_options source_hash
         if_missing) w
    = run handle
        (extraction_phase g name source archive_format None source_hash
           if_missing) w).
  { rewrite !run_extraction_phase. cbn zeta. by rewrite !Hstep. }
  unfold extracted. rewrite !run_bind. cbn zeta. by rewrite Hphase.
Qed.

(** ** Deletions *)

(** X6: a call deletes at most once, and as its last call: the cache
    file, when it reports a success and [keep] is off, or the marker,
    when it reports that nothing could be extracted. *)
Theorem cleanup_comes_last (g : Ambient) (name source archive_format : string)
    (tar_options source_hash if_missing : option string) (keep : bool)
    (w : W) :
  let m := marker name if_missing in
  let filename := cache_filename g m archive_format in
  let r := run handle
             (extracted g name source archive_format tar_options source_hash
                if_missing keep) w in
  exists before tail,
    trace r = before ++ tail
    /\ Forall (fun e : Event => is_cleanup e.1 = false) before
    /\ (tail = []
        \/ (tail = [(os_unlink filename, ADone)]
            /\ keep = false
            /\ exists ret, value r = Returned ret
                           /\ ret_result ret = Some true)
        \/ (tail = [(file_remove m, ADone)]
            /\ exists ret, value r = Returned ret
                           /\ ret_result ret = Some false)).
Proof.
  intros m filename r.
  pose proof (phase_deletes_nothing handle g name source archive_format
                tar_options source_hash if_missing w) as Hclean.
  destruct (value (run handle
                     (extraction_phase g name source archive_format
                        tar_options source_hash if_missing) w))
    as [res|files] eqn:Hphase.
  - destruct (extracted_trace handle g name source archive_format
                tar_options source_hash if_missing keep w)
      as (tail & Htrace & _ & Hreturned).
    destruct (Hreturned _ Hphase) as (_ & -> & _).
    eexists _, []. split; [exact Htrace|]. split; [exact Hclean|]. by left.
  - pose proof (extracted_after_phase handle g name source archive_format
                  tar_options source_hash if_missing keep w files Hphase)
      as Hrun.
    cbn zeta in Hrun. fold r m filename in Hrun.
    destruct (decide (len files = 0)) as [Hlen|Hlen].
    + destruct (aggregator_failed handle name source m keep filename files
                  (final (run handle
                            (extraction_phase g name source archive_format
                               tar_options source_hash if_missing) w))
                  Hlen) as [Hv Ht].
      eexists _, _. rewrite Hrun. cbn [trace value]. rewrite Ht, Hv.
      split; [reflexivity|]. split; [exact Hclean|].
      right. right. split; [reflexivity|]. by eexists.
    + destruct (aggregator_changed handle name source m keep filename files
                  (final (run handle
                            (extraction_phase g name source archive_format
                               tar_options source_hash if_missing) w))
                  Hlen) as [Hv Ht].
      eexists _, _. rewrite Hrun. cbn [trace value]. rewrite Ht, Hv.
      split; [reflexivity|]. split; [exact Hclean|].
      destruct keep; [by left|].
      right. left. split; [reflexivity|]. split; [reflexivity|]. by eexists.
Qed.

(** X8: [keep] decides one thing only: the call with [keep] on returns
    what the call with [keep] off returns, makes the same calls except
    for a last deletion of the cache file, and never deletes the cache
    file. *)
Theorem keep_only_spares_the_cache (g : Ambient)
    (name source archive_format : string)
    (tar_options source_hash if_missing : option string) (w : W) :
  let filename :=
    cache_filename g (marker name if_missing) archive_format in
  let kept := run handle
                (extracted g name source archive_format tar_options
                   source_hash if_missing true) w in
  let dropped := run handle
                   (extracted g name source archive_format tar_options
                      source_hash if_missing false) w in
  value kept = value dropped
  /\ (trace dropped = trace kept
      \/ trace dropped = trace kept ++ [(os_unlink filename, ADone)])
  /\ (forall p a, (os_unlink p, a) ∉ trace kept).
Proof.
  intros filename kept dropped.
  pose proof (phase_deletes_nothing handle g name source archive_format
                tar_options source_hash if_missing w) as Hclean.
  rewrite Forall_forall in Hclean.
  assert (Hphase_keeps : forall p a,
    (os_unlink p, a)
      ∉ trace (run handle
                 (extraction_phase g name source archive_format tar_options
                    source_hash if_missing) w)).
  { intros p a Hin. by apply Hclean in Hin. }
  destruct (value (run handle
                     (extraction_phase g name source archive_format
                        tar_options source_hash if_missing) w))
    as [res|files] eqn:Hphase.
  - destruct (extracted_trace handle g name source archive_format
                tar_options source_hash if_missing true w)
      as (tail1 & Htrace1 & _ & Hreturned1).
    destruct (extracted_trace handle g name source archive_format
                tar_options source_hash if_missing false w)
      as (tail2 & Htrace2 & _ & Hreturned2).
    destruct (Hreturned1 _ Hphase) as (Hv1 & -> & _).
    destruct (Hreturned2 _ Hphase) as (Hv2 & -> & _).
    fold kept in Htrace1, Hv1. fold dropped in Htrace2, Hv2.
    rewrite app_nil_r in Htrace1, Htrace2.
    split; [congruence|]. split; [left; congruence|].
    intros p a. rewrite Htrace1. apply Hphase_keeps.
  - pose proof (extracted_after_phase handle g name source archive_format
                  tar_options source_hash if_missing true w files Hphase)
      as Hkept.
    pose proof (extracted_after_phase handle g name source archive_format
                  tar_options source_hash if_missing false w files Hphase)
      as Hdropped.
    cbn zeta in Hkept, Hdropped.
    fold kept filename in Hkept. fold dropped filename in Hdropped.
    rewrite Hkept, Hdropped. cbn [value trace].
    destruct (decide (len files = 0)) as [Hlen|Hlen].
    + destruct (aggregator_failed handle name source
                  (marker name if_missing) true filename files
                  (final (run handle
                            (extraction_phase g name source archive_format
                               tar_options source_hash if_missing) w))
                  Hlen) as [Hv1 Ht1].
      destruct (aggregator_failed handle name source
                  (marker name if_missing) false filename files
                  (final (run handle
                            (extraction_phase g name source archive_format
                               tar_options source_hash if_missing) w))
                  Hlen) as [Hv2 Ht2].
      rewrite Hv1, Hv2, Ht1, Ht2. split; [done|]. split; [by left|].
      intros p a Hin. apply elem_of_app in Hin as [Hin|Hin].
      * by apply Hphase_keeps in Hin.
      * in_list Hin.
    + destruct (aggregator_changed handle name source
                  (marker name if_missing) true filename files
                  (final (run handle
                            (extraction_phase g name source archive_format
                               tar_options source_hash if_missing) w))
                  Hlen) as [Hv1 Ht1].
      destruct (aggregator_changed handle name source
                  (marker name if_missing) false filename files
                  (final (run handle
                            (extraction_phase g name source archive_format
                               tar_options source_hash if_missing) w))
                  Hlen) as [Hv2 Ht2].
      rewrite Hv1, Hv2, Ht1, Ht2. split; [done|].
      split; [right; by rewrite app_nil_r|].
      intros p a Hin. rewrite app_nil_r in Hin.
      by apply Hphase_keeps in Hin.
Qed.

(** ** The checks *)

(** X15: the marker is looked up as a file only after it was looked up as
    a directory and not found: the file check is the second call, of the
    marker, after a directory check answered with no. *)
Theorem file_check_follows_directory_check (g : Ambient)
    (name source archive_format : string)
    (tar_options source_hash if_missing : option string) (keep : bool)
    (w : W) (p : string) (a : Answer) :
  let m := marker name if_missing in
  let r := run handle
             (extracted g name source archive_format tar_options source_hash
                if_missing keep) w in
  (file_file_exists p, a) ∈ trace r ->
  p = m
  /\ take 2 (trace r)
     = [(file_directory_exists m, ABool false); (file_file_exists m, a)]
  /\ forall q, (file_directory_exists q, ABool true) ∉ trace r.
Proof.
  intros m r Hin.
  apply kept_event_in_phase in Hin; [|reflexivity].
  destruct (extracted_trace handle g name source archive_format tar_options
              source_hash if_missing keep w)
    as (tail & Htrace & Htail & _).
  fold r in Htrace. rewrite Htrace.
  assert (Hnot : forall q, (file_directory_exists q, ABool true) ∉ tail).
  { intros q Hq. rewrite Forall_forall in Htail. by apply Htail in Hq. }
  revert Hin. rewrite run_extraction_phase. cbn zeta. fold m.
  by_cases; cbn [negb trace prepend]; intros Hin;
    try (apply elem_of_app in Hin as [Hin|Hin]); in_list Hin;
    try (by apply extract_asks_nothing in Hin);
    injection Hin as -> ->;
    (split; [reflexivity|]); (split; [reflexivity|]);
    intros q Hq;
    repeat (apply elem_of_app in Hq as [Hq|Hq]);
    in_list Hq;
    try (by apply extract_asks_nothing in Hq);
    try (by apply Hnot in Hq).
Qed.

(** ** Running again *)

(** The world a run ends in is the world after its calls. *)
Lemma final_replay {A} (p : Prog A) (w : W) :
  final (run handle p w) = replay handle (calls (trace (run handle p w))) w.
Proof.
  revert w. induction p as [a|c k IH]; intros w; [reflexivity|].
  cbn [run final trace calls map replay fold_left fst].
  rewrite IH. reflexivity.
Qed.

(** A property of the world that every call of a list keeps, holds after
    the list. *)
Lemma replay_keeps (P : W -> Prop) (cs : list Call) (w : W) :
  (forall c w', c ∈ cs -> P w' -> P (handle c w').2) ->
  P w -> P (replay handle cs w).
Proof.
  revert w. induction cs as [|c cs IH]; intros w Hkeep Hw; [exact Hw|].
  cbn [replay fold_left]. apply IH.
  - intros c' w' Hin. apply Hkeep. by apply list_elem_of_further.
  - apply Hkeep; [apply list_elem_of_here|exact Hw].
Qed.

(** X17: let the collaborators be such that a directory that was made is
    found by the directory check, and stays so through every call that is
    not [file.remove].  Then after a call for a target that is its own
    marker, in which the target directory was made and no rollback took
    place -- the call changed something, or the tar executable failed --,
    the next call for this target and a supported format only checks the
    directory and reports that the target already exists. *)
Theorem rerun_finds_target (g : Ambient) (name source archive_format : string)
    (tar_options source_hash : option string) (keep : bool) (w : W)
    (g' : Ambient) (source' archive_format' : string)
    (tar_options' source_hash' : option string) (keep' : bool) :
  let found (w : W) := (handle (file_directory_exists name) w).1 = true in
  let first := run handle
                 (extracted g name source archive_format tar_options
                    source_hash None keep) w in
  let second := run handle
                  (extracted g' name source' archive_format' tar_options'
                     source_hash' None keep') (final first) in
  (forall w, found (handle (file_makedirs name) w).2) ->
  (forall c w, (forall p, c <> file_remove p) ->
               found w -> found (handle c w).2) ->
  (file_makedirs name, ADone) ∈ trace first ->
  (forall p a, (file_remove p, a) ∉ trace first) ->
  archive_format' ∈ ["tar"; "zip"; "rar"] ->
  exists ret,
    value second = Returned ret
    /\ ret_result ret = Some true
    /\ ret_changes ret = ∅
    /\ ret_comment ret = name +:+ " already exists"
    /\ trace second = [(file_directory_exists name, ABool true)].
Proof.
  intros found first second Hmade Hkept Hin Hno Hfmt.
  assert (Hfound : found (final first)).
  { unfold first. rewrite final_replay. fold first.
    apply list_elem_of_split in Hin as (l1 & l2 & Htrace).
    rewrite Htrace in Hno |- *.
    unfold calls. rewrite map_app. cbn [map fst].
    unfold replay. rewrite fold_left_app. cbn [fold_left].
    apply (replay_keeps found); [|apply Hmade].
    intros c w' Hc Hw'. apply Hkept; [|exact Hw'].
    intros p ->. apply list_elem_of_fmap in Hc as ([c a] & Hc & Hin).
    cbn in Hc. subst c. apply (Hno p a).
    apply elem_of_app. right. by apply list_elem_of_further. }
  unfold found in Hfound.
  apply supported_spec, elem_spec in Hfmt.
  destruct (extracted_trace handle g' name source' archive_format'
              tar_options' source_hash' None keep' (final first))
    as (tail & Htrace & _ & Hreturned).
  fold second in Htrace, Hreturned. revert Htrace Hreturned.
  rewrite run_extraction_phase. cbn zeta.
  change (marker name None) with name.
  rewrite Hfmt, Hfound. cbn [negb value trace]. intros Htrace Hreturned.
  destruct (Hreturned _ eq_refl) as (Hv & -> & _).
  eexists. split; [exact Hv|]. by rewrite Htrace.
Qed.

End MoreOfTheCode.

(** ** Tar options, again *)

(** The normalized options hold both letters. *)
Lemma normalized_has_both (tar_options : string) :
  PyStr.contains "x" (normalize_tar_options tar_options) = true
  /\ PyStr.contains "f" (normalize_tar_options tar_options) = true.
Proof.
  rewrite normalize_tar_options_unfold. split.
  - destruct (PyStr.contains "x" tar_options) eqn:Hx.
    + by apply contains_later, contains_later.
    + apply contains_later. apply (contains_inside "x" "-" " ").
  - destruct (PyStr.contains "f" tar_options) eqn:Hf.
    + by apply contains_later, contains_later.
    + apply (contains_inside "f" "-" " ").
Qed.

(** X13: the two flags are looked for as letters: options in which an
    [x] and an [f] occur anywhere, be it inside a long option or a file
    name, are handed to tar as they are. *)
Theorem options_with_both_letters_are_kept (tar_options : string) :
  PyStr.contains "x" tar_options = true ->
  PyStr.contains "f" tar_options = true ->
  normalize_tar_options tar_options = tar_options.
Proof.
  intros Hx Hf. by rewrite normalize_tar_options_unfold, Hx, Hf.
Qed.

(** X18: normalizing the tar options twice is normalizing them once. *)
Theorem normalize_tar_options_idempotent (tar_options : string) :
  normalize_tar_options (normalize_tar_options tar_options)
  = normalize_tar_options tar_options.
Proof.
  destruct (normalized_has_both tar_options) as [Hx Hf].
  by rewrite (normalize_tar_options_unfold (normalize_tar_options _)), Hx, Hf.
Qed.

(** ** The cache file *)

Lemma replace_has_no_slash (s : string) :
  PyStr.contains "/" (PyStr.replace "/" "_" s) = false.
Proof.
  induction s as [|c s IH]; [reflexivity|].
  cbn [PyStr.replace]. rewrite contains_unfold, IH, orb_false_r.
  cbn [String.prefix].
  destruct (Ascii.eqb_spec c "/") as [->|Hc]; [reflexivity|].
  destruct (ascii_dec "/" c) as [<-|_]; [done|reflexivity].
Qed.

Lemma replace_not_absolute (s rest : string) :
  String.prefix "/" (PyStr.replace "/" "_" s +:+ "." +:+ rest) = false.
Proof.
  destruct s as [|c s]; [reflexivity|].
  cbn [PyStr.replace].
  change (String ?a ?b +:+ ?r) with (String a (b +:+ r)).
  cbn [String.prefix].
  destruct (Ascii.eqb_spec c "/") as [->|Hc]; [reflexivity|].
  destruct (ascii_dec "/" c) as [<-|_]; [done|reflexivity].
Qed.

Lemma replace_twice (s : string) :
  PyStr.replace "/" "_" (PyStr.replace "/" "_" s) = PyStr.replace "/" "_" s.
Proof.
  induction s as [|c s IH]; [reflexivity|].
  cbn [PyStr.replace]. rewrite IH. f_equal.
  destruct (Ascii.eqb_spec c "/") as [->|Hc]; [reflexivity|].
  by destruct (Ascii.eqb_spec c "/").
Qed.

(** X14: when [os.path.join] puts a relative name behind the cache
    directory and a slash, the cache file lies in the cache directory
    itself, also for an absolute marker: its name is the marker with
    every slash turned into an underscore, a dot and the format, and the
    part that comes from the marker holds no slash. *)
Theorem cache_file_is_in_cachedir (g : Ambient)
    (if_missing archive_format : string) :
  (forall b, String.prefix "/" b = false ->
             os_path_join g (opts_cachedir g) b
             = opts_cachedir g +:+ "/" +:+ b) ->
  cache_filename g if_missing archive_format
  = opts_cachedir g +:+ "/" +:+ PyStr.replace "/" "_" if_missing +:+ "."
      +:+ archive_format
  /\ PyStr.contains "/" (PyStr.replace "/" "_" if_missing) = false.
Proof.
  intros Hjoin. split; [|apply replace_has_no_slash].
  unfold cache_filename. apply Hjoin, replace_not_absolute.
Qed.

(** X19: the cache file does not tell a slash from an underscore: a
    marker and the marker with its slashes turned into underscores share
    one cache file. *)
Theorem cache_file_is_shared (g : Ambient)
    (if_missing archive_format : string) :
  cache_filename g (PyStr.replace "/" "_" if_missing) archive_format
  = cache_filename g if_missing archive_format.
Proof. unfold cache_filename. by rewrite replace_twice. Qed.

(** ** Runs on the model file system, again *)

(** On the model file system a directory that was made is found. *)
Lemma fake_makedirs_is_found (p : string) (w : Fake.World) :
  (Fake.handle (file_directory_exists p)
     (Fake.handle (file_makedirs p) w).2).1 = true.
Proof.
  cbn [Fake.handle fst snd Fake.with_dirs Fake.dirs]. unfold Fake.has.
  cbn [existsb]. by rewrite String.eqb_refl.
Qed.

(** On the model file system only [file.remove] removes a directory. *)
Lemma fake_directory_stays (p : string) (c : Call) (w : Fake.World) :
  (forall q, c <> file_remove q) ->
  (Fake.handle (file_directory_exists p) w).1 = true ->
  (Fake.handle (file_directory_exists p) (Fake.handle c w).2).1 = true.
Proof.
  intros Hc. destruct c; try (by intros ?); [| |by destruct (Hc path)].
  - cbn [Fake.handle]. by destruct (Fake.fetch_ok w).
  - cbn [Fake.handle fst snd Fake.with_dirs Fake.dirs]. unfold Fake.has.
    cbn [existsb]. intros ->. apply orb_true_r.
Qed.

(** The posix join of the model puts a relative name behind the cache
    directory and a slash. *)
Lemma fake_join_in_cachedir (test : bool) (b : string) :
  String.prefix "/" b = false ->
  os_path_join (Fake.ambient test) (opts_cachedir (Fake.ambient test)) b
  = opts_cachedir (Fake.ambient test) +:+ "/" +:+ b.
Proof.
  intros Hb. cbn [os_path_join opts_cachedir Fake.ambient].
  unfold Fake.join. by rewrite Hb.
Qed.

(** X1 on a fresh target. *)
Lemma preview_never_acts_on_fresh :
  let g := Fake.ambient true in
  let r := run Fake.handle
             (extracted g "/opt/app" "salt://app.zip" "zip" None None None
                false) Fake.fresh in
  opts_test g = true
  /\ only_queries (trace r)
  /\ nothing_done (trace r)
  /\ final r = Fake.fresh.
Proof.
  split; [reflexivity|].
  destruct (preview_never_acts Fake.handle (Fake.ambient true) "/opt/app"
              "salt://app.zip" "zip" None None None false Fake.fresh eq_refl)
    as (Hq & Hn & _ & Hf & _).
  split; [exact Hq|]. split; [exact Hn|]. exact (Hf fake_query_pure).
Defined.

(** X2 on a fresh target. *)
Lemma fetch_only_when_needed_on_fresh :
  let g := Fake.ambient false in
  let filename := cache_filename g (marker "/opt/app" None) "zip" in
  let data := managed_file g filename "salt://app.zip" None in
  let answered :=
    [(filename,
      mkStateRet filename (Some true) {[ "diff" := PStr "New file" ]}
        "File updated")] in
  let r := run Fake.handle
             (extracted g "/opt/app" "salt://app.zip" "zip" None None None
                false) Fake.fresh in
  (state_high data, AHigh answered) ∈ trace r
  /\ opts_test g = false
  /\ Forall (fun e : Event => is_fetch e.1 = false) (drop 4 (trace r)).
Proof.
  assert (Hin :
    (state_high
       (managed_file (Fake.ambient false)
          (cache_filename (Fake.ambient false) (marker "/opt/app" None) "zip")
          "salt://app.zip" None),
     AHigh
       [(cache_filename (Fake.ambient false) (marker "/opt/app" None) "zip",
         mkStateRet
           (cache_filename (Fake.ambient false) (marker "/opt/app" None)
              "zip")
           (Some true) {[ "diff" := PStr "New file" ]} "File updated")])
    ∈ trace (run Fake.handle
               (extracted (Fake.ambient false) "/opt/app" "salt://app.zip"
                  "zip" None None None false) Fake.fresh))
    by in_trace 3.
  split; [exact Hin|].
  destruct (fetch_only_when_needed Fake.handle (Fake.ambient false)
              "/opt/app" "salt://app.zip" "zip" None None None false
              Fake.fresh _ _ Hin)
    as (_ & Htest & _ & _ & _ & _ & _ & Hrest).
  by split.
Defined.

(** X3 on a target whose archive is in the cache. *)
Lemma cached_archive_is_not_fetched_on_cached :
  let g := Fake.ambient false in
  let filename := cache_filename g (marker "/opt/app" None) "tar" in
  let r := run Fake.handle
             (extracted g "/opt/app" "salt://app.tar" "tar" None None None
                false) Fake.cached in
  (os_path_exists filename, ABool true) ∈ trace r
  /\ Forall (fun e : Event => is_fetch e.1 = false) (trace r).
Proof.
  assert (Hin :
    (os_path_exists
       (cache_filename (Fake.ambient false) (marker "/opt/app" None) "tar"),
     ABool true)
    ∈ trace (run Fake.handle
               (extracted (Fake.ambient false) "/opt/app" "salt://app.tar"
                  "tar" None None None false) Fake.cached))
    by in_trace 2.
  split; [exact Hin|].
  by destruct (cached_archive_is_not_fetched Fake.handle (Fake.ambient false)
                 "/opt/app" "salt://app.tar" "tar" None None None false
                 Fake.cached _ Hin) as (_ & Hnone & _).
Defined.

(** X4 on a [state.high] that answers with an empty dictionary. *)
Lemma empty_fetch_answer_raises_on_mute :
  let g := Fake.ambient false in
  let filename := cache_filename g (marker "/opt/app" None) "tar" in
  let data := managed_file g filename "salt://app.tar" None in
  let r := run Fake.mute
             (extracted g "/opt/app" "salt://app.tar" "tar" None None None
                false) Fake.fresh in
  (state_high data, AHigh []) ∈ trace r
  /\ value r = Raised IndexError.
Proof.
  assert (Hin :
    (state_high
       (managed_file (Fake.ambient false)
          (cache_filename (Fake.ambient false) (marker "/opt/app" None) "tar")
          "salt://app.tar" None), AHigh [])
    ∈ trace (run Fake.mute
               (extracted (Fake.ambient false) "/opt/app" "salt://app.tar"
                  "tar" None None None false) Fake.fresh))
    by in_trace 3.
  split; [exact Hin|].
  destruct (empty_fetch_answer_raises Fake.mute (Fake.ambient false)
              "/opt/app" "salt://app.tar" "tar" None None None false
              Fake.fresh) as [[_ Hraises] _].
  apply Hraises. eexists. exact Hin.
Defined.

(** X5 on a fresh target. *)
Lemma successful_fetch_is_extracted_on_fresh :
  let g := Fake.ambient false in
  let filename := cache_filename g (marker "/opt/app" None) "zip" in
  let data := managed_file g filename "salt://app.zip" None in
  let file_result :=
    mkStateRet filename (Some true) {[ "diff" := PStr "New file" ]}
      "File updated" in
  let r := run Fake.handle
             (extracted g "/opt/app" "salt://app.zip" "zip" None None None
                false) Fake.fresh in
  (state_high data, AHigh [(filename, file_result)]) ∈ trace r
  /\ falsy (ret_result file_result) = false
  /\ trace r !! 4 = Some (file_makedirs "/opt/app", ADone).
Proof.
  assert (Hin :
    (state_high
       (managed_file (Fake.ambient false)
          (cache_filename (Fake.ambient false) (marker "/opt/app" None) "zip")
          "salt://app.zip" None),
     AHigh
       [(cache_filename (Fake.ambient false) (marker "/opt/app" None) "zip",
         mkStateRet
           (cache_filename (Fake.ambient false) (marker "/opt/app" None)
              "zip")
           (Some true) {[ "diff" := PStr "New file" ]} "File updated")])
    ∈ trace (run Fake.handle
               (extracted (Fake.ambient false) "/opt/app" "salt://app.zip"
                  "zip" None None None false) Fake.fresh))
    by in_trace 3.
  split; [exact Hin|]. split; [reflexivity|].
  by destruct (successful_fetch_is_extracted Fake.handle (Fake.ambient false)
                 "/opt/app" "salt://app.zip" "zip" None None None false
                 Fake.fresh _ _ _ [] Hin eq_refl) as [Hmade _].
Defined.

(** X9 on a zip archive and the option [J]. *)
Lemma tar_options_ignored_by_unpackers_on_zip :
  "zip" ∈ ["zip"; "rar"]
  /\ run Fake.handle
       (extracted (Fake.ambient false) "/opt/app" "salt://app.zip" "zip"
          (Some "J") None None false) Fake.fresh
     = run Fake.handle
         (extracted (Fake.ambient false) "/opt/app" "salt://app.zip" "zip"
            None None None false) Fake.fresh.
Proof.
  assert (Hzip : "zip" ∈ ["zip"; "rar"]) by apply list_elem_of_here.
  split; [exact Hzip|].
  exact (tar_options_ignored_by_unpackers Fake.handle (Fake.ambient false)
           "/opt/app" "salt://app.zip" "zip" (Some "J") None None false
           Fake.fresh Hzip).
Defined.

(** X10 on a tar archive in the cache. *)
Lemma python_tarfile_unpacks_all_on_cached :
  let g := Fake.ambient false in
  let filename := cache_filename g (marker "/opt/app" None) "tar" in
  let phase := run Fake.handle
                 (extraction_phase g "/opt/app" "salt://app.tar" "tar" None
                    None None) Fake.cached in
  let r := run Fake.handle
             (extracted g "/opt/app" "salt://app.tar" "tar" None None None
                true) Fake.cached in
  (tar_getnames filename, ANames ["a.txt"; "b.txt"]) ∈ trace r
  /\ value phase = inr (FNames ["a.txt"; "b.txt"]).
Proof.
  assert (Hin :
    (tar_getnames
       (cache_filename (Fake.ambient false) (marker "/opt/app" None) "tar"),
     ANames ["a.txt"; "b.txt"])
    ∈ trace (run Fake.handle
               (extracted (Fake.ambient false) "/opt/app" "salt://app.tar"
                  "tar" None None None true) Fake.cached))
    by in_trace 5.
  split; [exact Hin|].
  by destruct (python_tarfile_unpacks_all Fake.handle (Fake.ambient false)
                 "/opt/app" "salt://app.tar" "tar" None None None true
                 Fake.cached _ _ Hin) as (_ & _ & _ & _ & Hvalue & _).
Defined.

(** X11 on a zip archive. *)
Lemma unpacker_is_chosen_by_format_on_zip :
  let g := Fake.ambient false in
  let filename := cache_filename g (marker "/opt/app" None) "zip" in
  let phase := run Fake.handle
                 (extraction_phase g "/opt/app" "salt://app.zip" "zip" None
                    None None) Fake.fresh in
  let r := run Fake.handle
             (extracted g "/opt/app" "salt://app.zip" "zip" None None None
                false) Fake.fresh in
  (archive_un "zip" filename "/opt/app", ANames ["a.txt"; "b.txt"]) ∈ trace r
  /\ value phase = inr (FNames ["a.txt"; "b.txt"]).
Proof.
  assert (Hin :
    (archive_un "zip"
       (cache_filename (Fake.ambient false) (marker "/opt/app" None) "zip")
       "/opt/app", ANames ["a.txt"; "b.txt"])
    ∈ trace (run Fake.handle
               (extracted (Fake.ambient false) "/opt/app" "salt://app.zip"
                  "zip" None None None false) Fake.fresh))
    by in_trace 5.
  split; [exact Hin|].
  by destruct (unpacker_is_chosen_by_format Fake.handle (Fake.ambient false)
                 "/opt/app" "salt://app.zip" "zip" None None None false
                 Fake.fresh _ _ _ _ Hin)
       as (_ & _ & _ & _ & _ & Hvalue & _).
Defined.

(** X12 on bsdtar, which lists the names on the standard error. *)
Lemma bsdtar_probe_selects_output_on_bsdtar :
  let r := run Fake.handle
             (extracted (Fake.ambient false) "/opt/app" "salt://app.tar"
                "tar" (Some "J") None None false) Fake.with_bsdtar in
  (cmd_retcode bsdtar_probe, AInt 0) ∈ trace r
  /\ exists ret,
       value r = Returned ret
       /\ ret_changes ret !! "extracted_files" = Some (PStr "x a.txt").
Proof.
  assert (Hin :
    (cmd_retcode bsdtar_probe, AInt 0)
    ∈ trace (run Fake.handle
               (extracted (Fake.ambient false) "/opt/app" "salt://app.tar"
                  "tar" (Some "J") None None false) Fake.with_bsdtar))
    by in_trace 6.
  split; [exact Hin|].
  destruct (bsdtar_probe_selects_output Fake.handle (Fake.ambient false)
              "/opt/app" "salt://app.tar" "tar" (Some "J") None None false
              Fake.with_bsdtar _ _ Hin)
    as (_ & cmd & results & ret & Hran & _ & Hv & _ & Hfiles).
  exists ret. split; [exact Hv|].
  assert (Hresults : results = Fake.listing).
  { clear -Hran. apply list_elem_of_In in Hran. vm_compute in Hran.
    repeat (destruct Hran as [Hran|Hran]; [try discriminate Hran|]);
      [|destruct Hran].
    by injection Hran. }
  rewrite Hfiles, Hresults. reflexivity.
Defined.

(** X13 on a long option. *)
Lemma options_with_both_letters_are_kept_on_exclude :
  PyStr.contains "x" "--exclude=foo" = true
  /\ PyStr.contains "f" "--exclude=foo" = true
  /\ normalize_tar_options "--exclude=foo" = "--exclude=foo".
Proof.
  split; [reflexivity|]. split; [reflexivity|].
  exact (options_with_both_letters_are_kept "--exclude=foo" eq_refl eq_refl).
Defined.

(** X14 on the posix join and an absolute marker. *)
Lemma cache_file_is_in_cachedir_on_posix :
  cache_filename (Fake.ambient false) "/opt/app" "tar"
  = "/var/cache/salt/minion" +:+ "/" +:+ PyStr.replace "/" "_" "/opt/app"
      +:+ "." +:+ "tar"
  /\ PyStr.replace "/" "_" "/opt/app" = "_opt_app".
Proof.
  split; [|reflexivity].
  by destruct (cache_file_is_in_cachedir (Fake.ambient false) "/opt/app"
                 "tar" (fake_join_in_cachedir false)) as [Hname _].
Defined.

(** X15 on a fresh target. *)
Lemma file_check_follows_directory_check_on_fresh :
  let r := run Fake.handle
             (extracted (Fake.ambient false) "/opt/app" "salt://app.tar"
                "tar" None None None false) Fake.fresh in
  (file_file_exists "/opt/app", ABool false) ∈ trace r
  /\ take 2 (trace r)
     = [(file_directory_exists (marker "/opt/app" None), ABool false);
        (file_file_exists (marker "/opt/app" None), ABool false)].
Proof.
  assert (Hin :
    (file_file_exists "/opt/app", ABool false)
    ∈ trace (run Fake.handle
               (extracted (Fake.ambient false) "/opt/app" "salt://app.tar"
                  "tar" None None None false) Fake.fresh))
    by in_trace 1.
  split; [exact Hin|].
  by destruct (file_check_follows_directory_check Fake.handle
                 (Fake.ambient false) "/opt/app" "salt://app.tar" "tar" None
                 None None false Fake.fresh _ _ Hin) as (_ & Htake & _).
Defined.

(** X16 on a source that cannot be fetched: the record is the fetch's. *)
Lemma returned_record_is_for_target_on_unreachable :
  let g := Fake.ambient false in
  let filename := cache_filename g (marker "/opt/app" None) "zip" in
  let ret := mkStateRet filename (Some false) ∅ "Source file not found" in
  let r := run Fake.handle
             (extracted g "/opt/app" "salt://app.zip" "zip" None None None
                false) Fake.unreachable in
  value r = Returned ret
  /\ ret_name ret <> "/opt/app"
  /\ exists data id others,
       (state_high data, AHigh ((id, ret) :: others)) ∈ trace r.
Proof.
  assert (Hv :
    value (run Fake.handle
             (extracted (Fake.ambient false) "/opt/app" "salt://app.zip"
                "zip" None None None false) Fake.unreachable)
    = Returned
        (mkStateRet
           (cache_filename (Fake.ambient false) (marker "/opt/app" None)
              "zip")
           (Some false) ∅ "Source file not found"))
    by (vm_compute; reflexivity).
  assert (Hname :
    ret_name
      (mkStateRet
         (cache_filename (Fake.ambient false) (marker "/opt/app" None) "zip")
         (Some false) ∅ "Source file not found") <> "/opt/app")
    by (vm_compute; discriminate).
  split; [exact Hv|]. split; [exact Hname|].
  destruct (returned_record_is_for_target Fake.handle (Fake.ambient false)
              "/opt/app" "salt://app.zip" "zip" None None None false
              Fake.unreachable _ Hv)
    as [[Hbuilt _]|(data & id & others & Hin & _)].
  - by destruct Hname.
  - by exists data, id, others.
Defined.

(** X17 after a failure of the tar executable. *)
Lemma rerun_finds_target_on_broken_tool :
  let g := Fake.ambient false in
  let first := run Fake.handle
                 (extracted g "/opt/app" "salt://app.tar" "tar" (Some "J")
                    None None false) Fake.broken_tool in
  let second := run Fake.handle
                  (extracted g "/opt/app" "salt://app.tar" "tar" (Some "J")
                     None None false) (final first) in
  (exists ret, value first = Returned ret /\ ret_result ret = Some false)
  /\ (file_makedirs "/opt/app", ADone) ∈ trace first
  /\ exists ret,
       value second = Returned ret
       /\ ret_result ret = Some true
       /\ ret_comment ret = "/opt/app" +:+ " already exists".
Proof.
  assert (Hin :
    (file_makedirs "/opt/app", ADone)
    ∈ trace (run Fake.handle
               (extracted (Fake.ambient false) "/opt/app" "salt://app.tar"
                  "tar" (Some "J") None None false) Fake.broken_tool))
    by in_trace 4.
  assert (Hno : forall p a,
    (file_remove p, a)
    ∉ trace (run Fake.handle
               (extracted (Fake.ambient false) "/opt/app" "salt://app.tar"
                  "tar" (Some "J") None None false) Fake.broken_tool)).
  { intros p a Hp. apply list_elem_of_In in Hp. vm_compute in Hp.
    repeat (destruct Hp as [Hp|Hp]; [discriminate Hp|]). destruct Hp. }
  split; [eexists; split; [vm_compute; reflexivity|reflexivity]|].
  split; [exact Hin|].
  destruct (rerun_finds_target Fake.handle (Fake.ambient false) "/opt/app"
              "salt://app.tar" "tar" (Some "J") None false Fake.broken_tool
              (Fake.ambient false) "salt://app.tar" "tar" (Some "J") None
              false (fake_makedirs_is_found "/opt/app")
              (fake_directory_stays "/opt/app") Hin Hno supported_tar)
    as (ret & Hv & Hr & _ & Hc & _).
  by exists ret.
Defined.
